(** * The IWR6843 packet decoder of [src/data.py]

    A shallow embedding of the classes [BytesUtils], [MathUtils],
    [PacketInfo], [DetectedObject] and [PacketHandler], followed by the
    properties of the decoder.

    - A [bytes] object is a [list byte]; indexing one yields a Python
      [int], here a [Z].
    - Python exceptions are the [Err] branch of [result]; the decoder can
      raise [IndexError] (indexing a slice that is too short),
      [struct.error] ([unpack] of a slice that is not 4 bytes long) and the
      arithmetic errors of [float].
    - [DetectedObject] instances are mutable and are handed out by
      reference: they live in an object store ([heap]) that outlives a call,
      and the code that touches them runs in a state-and-error monad. *)

From Stdlib Require Import ZArith Lia Bool.
From Stdlib Require Import Strings.Byte.
From Stdlib Require Import Floats.
From stdpp Require Import base list.

Local Open Scope Z_scope.

(** ** Exceptions *)

Inductive pyerr : Set :=
  | IndexError
  | StructError
  | ZeroDivisionError
  | OverflowError
  | ValueError.

Inductive result (A : Type) : Type :=
  | Ok (a : A)
  | Err (e : pyerr).
Arguments Ok {A} a.
Arguments Err {A} e.

Global Instance result_ret : MRet result := λ A a, Ok a.

Global Instance result_bind : MBind result := λ A B k r,
  match r with
  | Ok a => k a
  | Err e => Err e
  end.

Global Instance result_fmap : FMap result := λ A B f r,
  match r with
  | Ok a => Ok (f a)
  | Err e => Err e
  end.

(** ** Sequences *)

Definition byte_val (b : byte) : Z := Z.of_N (Byte.to_N b).

Global Instance byte_eq_decision : EqDecision byte := Byte.byte_eq_dec.

(** [clamp len i]: how a slice bound [i] is read against a sequence of
    length [len]: a negative bound counts from the end, and the outcome is
    cut to [0..len]. *)
Definition clamp (len i : Z) : Z :=
  if i <? 0 then Z.max (i + len) 0 else Z.min i len.

(** [data[lo:hi:1]]: never raises. *)
Definition py_slice {A} (data : list A) (lo hi : Z) : list A :=
  let len := Z.of_nat (length data) in
  let lo' := clamp len lo in
  let hi' := clamp len hi in
  take (Z.to_nat (hi' - lo')) (drop (Z.to_nat lo') data).

(** [data[i]]: raises [IndexError] outside [-len..len-1]. *)
Definition py_getitem {A} (data : list A) (i : Z) : result A :=
  let len := Z.of_nat (length data) in
  let j := if i <? 0 then i + len else i in
  if j <? 0 then Err IndexError
  else match data !! Z.to_nat j with
       | Some a => Ok a
       | None => Err IndexError
       end.

(** [data[i]] on a [bytes] object is an [int]. *)
Definition byte_at (data : list byte) (i : Z) : result Z :=
  (b ← py_getitem data i; Ok (byte_val b)).

(** [range(n)] *)
Definition py_range (n : Z) : list Z :=
  Z.of_nat <$> seq 0 (Z.to_nat n).

(** ** class BytesUtils *)

Module BytesUtils.

Definition get_uint32 (data : list byte) : result Z :=
  (d0 ← byte_at data 0;
   d1 ← byte_at data 1;
   d2 ← byte_at data 2;
   d3 ← byte_at data 3;
   Ok (d0 + d1 * 256 + d2 * 65536 + d3 * 16777216)).

Definition get_uint16 (data : list byte) : result Z :=
  (d0 ← byte_at data 0;
   d1 ← byte_at data 1;
   Ok (d0 + d1 * 256)).

(** [a and b] on two comparisons: [b] is evaluated only when [a] holds. *)
Definition and_then (a : result bool) (b : result bool) : result bool :=
  x ← a; if x : bool then b else Ok false.

Definition byte_is (data : list byte) (i v : Z) : result bool :=
  (d ← byte_at data i; Ok (d =? v)).

Definition check_magic_pattern (data : list byte) : result Z :=
  let found := 0 in
  (c ← and_then (byte_is data 0 2)
      (and_then (byte_is data 1 1)
      (and_then (byte_is data 2 4)
      (and_then (byte_is data 3 3)
      (and_then (byte_is data 4 6)
      (and_then (byte_is data 5 5)
      (and_then (byte_is data 6 8)
                (byte_is data 7 7)))))));
   let found := if c : bool then 1 else found in
   Ok found).

End BytesUtils.

(** ** Floating point

    A Python [float] is a binary64 number: the kernel's primitive [float].
    [math.atan] is not among the primitive operations, so a value computed
    through it is kept as a term over its binary64 argument. *)

Inductive pyfloat : Set :=
  | Fl (f : float)
  | Atan (a : float)
  | FMul (c : float) (x : pyfloat).

(** [c * x] *)
Definition fl_mul (c : float) (x : pyfloat) : pyfloat :=
  match x with
  | Fl f => Fl (c * f)%float
  | _ => FMul c x
  end.

(** [x ** 2]: [OverflowError] when a finite [x] has an infinite square. *)
Definition fl_pow2 (x : float) : result float :=
  let r := (x * x)%float in
  if is_infinity r && is_finite x then Err OverflowError else Ok r.

(** [math.sqrt] *)
Definition fl_sqrt (x : float) : result float :=
  if (x <? 0)%float then Err ValueError else Ok (PrimFloat.sqrt x).

(** [a / b] *)
Definition fl_div (a b : float) : result float :=
  if (b =? 0)%float then Err ZeroDivisionError else Ok (a / b)%float.

(** The binary32 number of a 32-bit pattern, as the binary64 number of the
    same value. *)
Definition float_of_bits32 (bits : Z) : float :=
  let s := Z.testbit bits 31 in
  let e := Z.land (Z.shiftr bits 23) 255 in
  let m := Z.land bits 8388607 in
  SF2Prim
    (if e =? 255 then
       if m =? 0 then S754_infinity s else S754_nan
     else if e =? 0 then
       match m with
       | Zpos p => S754_finite s p (-149)
       | _ => S754_zero s
       end
     else
       match m + 8388608 with
       | Zpos p => S754_finite s p (e - 150)
       | _ => S754_zero s
       end).

(** [unpack('<f', decode(hexlify(b), 'hex'))[0]]: [hexlify] followed by
    [decode(_, 'hex')] gives [b] back, and [unpack] raises [struct.error]
    unless [b] has exactly 4 bytes. *)
Definition unpack_f (b : list byte) : result float :=
  match b with
  | [b0; b1; b2; b3] =>
      Ok (float_of_bits32 (byte_val b0 + byte_val b1 * 256
                           + byte_val b2 * 65536 + byte_val b3 * 16777216))
  | _ => Err StructError
  end.

(** ** class MathUtils *)

Module MathUtils.

#[warnings="-inexact-float"]
Definition ONEHUNDRENDEIGHTYOVERPI : float := 57.2957795131%float.

Definition radians_to_degrees (angle : pyfloat) : pyfloat :=
  fl_mul ONEHUNDRENDEIGHTYOVERPI angle.

Definition get_range (x y z : float) : result pyfloat :=
  x2 ← fl_pow2 x;
  y2 ← fl_pow2 y;
  z2 ← fl_pow2 z;
  r ← fl_sqrt (x2 + y2 + z2)%float;
  Ok (Fl r).

Definition get_azimuth (x y : float) : result pyfloat :=
  if negb (y =? 0)%float then
    q ← fl_div x y;
    Ok (radians_to_degrees (Atan q))
  else
    if (x <? 0)%float then Ok (Fl (-90)%float)
    else Ok (Fl 90%float).

Definition get_elev_angle (x y z : float) : result pyfloat :=
  if (x =? 0)%float && (y =? 0)%float then
    if (z <? 0)%float then Ok (Fl (-90)%float)
    else Ok (Fl 90%float)
  else
    x2 ← fl_pow2 x;
    y2 ← fl_pow2 y;
    r ← fl_sqrt (x2 + y2)%float;
    q ← fl_div z r;
    Ok (radians_to_degrees (Atan q)).

End MathUtils.

(** ** class ParserStatus *)

Inductive ParserStatus : Set :=
  | TC_PASS
  | TC_FAIL.

(** ** class PacketInfo *)

Module PacketInfo.

Record t : Set := mk {
  header_start_index : Z;
  packet_length : Z;
  number_detected_objects : Z;
  number_tlv : Z;
  frame_number : Z;
  sub_frame_number : Z;
  time_cpu_cycles : Z
}.

(** [__init__], its parameters in the order of the signature. *)
Definition init (header_start_index packet_length number_detected_objects
                 number_tlv frame_number sub_frame_number time_cpu_cycles : Z) : t :=
  {| header_start_index := header_start_index;
     packet_length := packet_length;
     number_detected_objects := number_detected_objects;
     number_tlv := number_tlv;
     frame_number := frame_number;
     sub_frame_number := sub_frame_number;
     time_cpu_cycles := time_cpu_cycles |}.

(** [PacketInfo()]: every parameter at its default. *)
Definition default : t := init (-1) (-1) (-1) (-1) (-1) (-1) (-1).

End PacketInfo.

(** ** class DetectedObject *)

(** What an attribute of a [DetectedObject] can hold: a [float], an [int]
    (the quality sub-packet stores the integers it read), or the builtin
    class [range]. *)
Inductive pyval : Set :=
  | PyFloat (f : pyfloat)
  | PyInt (n : Z)
  | PyBuiltinRange.

Module DetectedObject.

Record t : Set := mk {
  x : pyval;
  y : pyval;
  z : pyval;
  v : pyval;
  computed_range : pyval;
  azimuth : pyval;
  elev_angle : pyval;
  snr : pyval;
  noise : pyval
}.

(** [__init__]. Its body reads the name [range], which is no parameter
    (the parameter is [computed_range]) and no global of the module: it is
    the builtin. *)
Definition init (x y z v computed_range azimuth elev_angle snr noise : pyval) : t :=
  {| x := x;
     y := y;
     z := z;
     v := v;
     computed_range := PyBuiltinRange;
     azimuth := azimuth;
     elev_angle := elev_angle;
     snr := snr;
     noise := noise |}.

Definition zero : pyval := PyFloat (Fl 0%float).

(** [DetectedObject()]: every parameter at its default, [0.0]. *)
Definition default : t := init zero zero zero zero zero zero zero zero zero.

Definition tlv_type_1 (x y z v computed_range azimuth elev_angle : pyval) (self : t) : t :=
  {| x := x;
     y := y;
     z := z;
     v := v;
     computed_range := computed_range;
     azimuth := azimuth;
     elev_angle := elev_angle;
     snr := snr self;
     noise := noise self |}.

Definition tlv_type_7 (snr noise : pyval) (self : t) : t :=
  {| x := x self;
     y := y self;
     z := z self;
     v := v self;
     computed_range := computed_range self;
     azimuth := azimuth self;
     elev_angle := elev_angle self;
     snr := snr;
     noise := noise |}.

End DetectedObject.

(** ** The object store

    A [DetectedObject] is reached through a reference. The store holds every
    instance created so far, by this call or an earlier one; a reference is
    the position of its object. *)

Abbreviation loc := nat (only parsing).
Abbreviation heap := (list DetectedObject.t) (only parsing).

Definition M (A : Type) : Type := heap → result A * heap.

Global Instance M_ret : MRet M := λ A a h, (Ok a, h).

Global Instance M_bind : MBind M := λ A B k m h,
  match m h with
  | (Ok a, h') => k a h'
  | (Err e, h') => (Err e, h')
  end.

(** A computation that does not touch the store. *)
Definition lift {A} (r : result A) : M A := λ h, (r, h).

(** Calling the class: a new instance, whose reference is returned. *)
Definition alloc (o : DetectedObject.t) : M loc := λ h, (Ok (length h), h ++ [o]).

(** Calling a method that assigns attributes of [self]. *)
Definition update (l : loc) (method : DetectedObject.t → DetectedObject.t) : M unit :=
  λ h, (Ok (), alter method l h).

(** [for i in xs: s = body(i, s)], [s] being the variables the body assigns. *)
Fixpoint for_in {S : Type} (xs : list Z) (body : Z → S → M S) (s : S) : M S :=
  match xs with
  | [] => mret s
  | i :: rest => s' ← body i s; for_in rest body s'
  end.

(** ** class PacketHandler *)

Module PacketHandler.

Import PacketInfo.

Definition HEADER_BYTE_SIZE : Z := 40.

(** The loop of [_parse_packet_info] over the indices still to visit:
    [header_start_index] keeps its value unless a window matches, and the
    first match leaves the loop. *)
Fixpoint find_header_start (data : list byte) (indices : list Z)
    (header_start_index : Z) : result Z :=
  match indices with
  | [] => Ok header_start_index
  | index :: rest =>
      found ← BytesUtils.check_magic_pattern (py_slice data index (index + 8));
      if found =? 1 then Ok index
      else find_header_start data rest header_start_index
  end.

Definition _parse_packet_info (data : list byte) : result PacketInfo.t :=
  let header_start_index := -1 in
  let num_bytes := Z.of_nat (length data) in
  header_start_index ← find_header_start data (py_range num_bytes) header_start_index;
  if negb (header_start_index =? -1) then
    packet_length ← BytesUtils.get_uint32
      (py_slice data (header_start_index + 12) (header_start_index + 16));
    frame_number ← BytesUtils.get_uint32
      (py_slice data (header_start_index + 20) (header_start_index + 24));
    time_cpu_cycles ← BytesUtils.get_uint32
      (py_slice data (header_start_index + 24) (header_start_index + 28));
    number_detected_objects ← BytesUtils.get_uint32
      (py_slice data (header_start_index + 28) (header_start_index + 32));
    number_tlv ← BytesUtils.get_uint32
      (py_slice data (header_start_index + 32) (header_start_index + 36));
    sub_frame_number ← BytesUtils.get_uint32
      (py_slice data (header_start_index + 36) (header_start_index + 40));
    Ok (PacketInfo.init header_start_index packet_length number_detected_objects
          number_tlv frame_number sub_frame_number time_cpu_cycles)
  else Ok PacketInfo.default.

Definition _get_status (data : list byte) (packet_info : PacketInfo.t)
    : result ParserStatus :=
  if header_start_index packet_info =? -1 then Ok TC_FAIL
  else if number_detected_objects packet_info <? 0 then Ok TC_FAIL
  else if sub_frame_number packet_info >? 3 then Ok TC_FAIL
  else if header_start_index packet_info + packet_length packet_info
            >? Z.of_nat (length data) then Ok TC_FAIL
  else
    let next_header_start_index :=
      header_start_index packet_info + packet_length packet_info in
    c ← BytesUtils.and_then
          (Ok (next_header_start_index + 8 <? packet_length packet_info))
          (found ← BytesUtils.check_magic_pattern
                     (py_slice data next_header_start_index
                                    (next_header_start_index + 8));
           Ok (found =? 0));
    if c : bool then Ok TC_FAIL else Ok TC_PASS.

(** The first loop of [_parse_tlvs]. *)
Definition allocate (n : Z) (detected_objects : list loc) : M (list loc) :=
  for_in (py_range n)
    (λ _ detected_objects,
       o ← alloc DetectedObject.default;
       mret (detected_objects ++ [o]))
    detected_objects.

(** The body of the loop over a type 1 sub-packet; [offset] is the
    variable it assigns. *)
Definition tlv_1_body (data : list byte) (detected_objects : list loc)
    (tlv_start : Z) (obj : Z) (offset : Z) : M Z :=
  x ← lift (unpack_f (py_slice data (tlv_start + offset) (tlv_start + offset + 4)));
  y ← lift (unpack_f (py_slice data (tlv_start + offset + 4) (tlv_start + offset + 8)));
  z ← lift (unpack_f (py_slice data (tlv_start + offset + 8) (tlv_start + offset + 12)));
  v ← lift (unpack_f (py_slice data (tlv_start + offset + 12) (tlv_start + offset + 16)));
  computed_range ← lift (MathUtils.get_range x y z);
  azimuth ← lift (MathUtils.get_azimuth x y);
  elev_angle ← lift (MathUtils.get_elev_angle x y z);
  o ← lift (py_getitem detected_objects obj);
  _ ← update o (DetectedObject.tlv_type_1 (PyFloat (Fl x)) (PyFloat (Fl y))
                  (PyFloat (Fl z)) (PyFloat (Fl v)) (PyFloat computed_range)
                  (PyFloat azimuth) (PyFloat elev_angle));
  mret (offset + 16).

(** The body of the loop over a type 7 sub-packet. *)
Definition tlv_7_body (data : list byte) (detected_objects : list loc)
    (tlv_start : Z) (obj : Z) (offset : Z) : M Z :=
  snr ← lift (BytesUtils.get_uint16
                (py_slice data (tlv_start + offset + 0) (tlv_start + offset + 2)));
  noise ← lift (BytesUtils.get_uint16
                  (py_slice data (tlv_start + offset + 2) (tlv_start + offset + 4)));
  o ← lift (py_getitem detected_objects obj);
  _ ← update o (DetectedObject.tlv_type_7 (PyInt snr) (PyInt noise));
  mret (offset + 4).

Definition _parse_tlvs (data : list byte) (packet_info : PacketInfo.t)
    : M (list loc) :=
  detected_objects ← allocate (number_detected_objects packet_info) [];
  let tlv_start := header_start_index packet_info + 40 in
  tlv_type ← lift (BytesUtils.get_uint32 (py_slice data (tlv_start + 0) (tlv_start + 4)));
  tlv_len ← lift (BytesUtils.get_uint32 (py_slice data (tlv_start + 4) (tlv_start + 8)));
  let offset := 8 in
  _ ← (if (tlv_type =? 1) && (tlv_len <? packet_length packet_info) then
         for_in (py_range (number_detected_objects packet_info))
           (tlv_1_body data detected_objects tlv_start) offset
       else mret offset);
  let tlv_start := tlv_start + 8 + tlv_len in
  tlv_type ← lift (BytesUtils.get_uint32 (py_slice data (tlv_start + 0) (tlv_start + 4)));
  tlv_len ← lift (BytesUtils.get_uint32 (py_slice data (tlv_start + 4) (tlv_start + 8)));
  let offset := 8 in
  _ ← (if tlv_type =? 7 then
         for_in (py_range (number_detected_objects packet_info))
           (tlv_7_body data detected_objects tlv_start) offset
       else mret offset);
  mret detected_objects.

Definition parser (data : list byte) : M (option (list loc)) :=
  packet_info ← lift (_parse_packet_info data);
  status ← lift (_get_status data packet_info);
  match status with
  | TC_PASS =>
      detected_objects ← _parse_tlvs data packet_info;
      mret (Some detected_objects)
  | TC_FAIL => mret None
  end.

End PacketHandler.

(** ** class Reader

    [data_port] is a [Serial] of the [serial] package, outside this
    program: [read_buffer] stands for what
    [self.data_port.read(self.data_port.inWaiting())] returned. A call that
    falls off the end of [read] returns [None]. *)

Module Reader.

Definition read (read_buffer : list byte) : M (option (list loc)) :=
  if Z.of_nat (length read_buffer) >? 0 then PacketHandler.parser read_buffer
  else mret None.

End Reader.

(** ** Reference definitions

    What the properties are stated against: the little-endian encoders, the
    sync pattern and the layout of the header as the wire format gives
    them, and how one run in the object store relates to another. None of
    them is part of the decoder. *)

Definition byte_of_Z (n : Z) : byte :=
  match Byte.of_N (Z.to_N (n mod 256)) with
  | Some b => b
  | None => x00
  end.

Definition encode_u32 (u : Z) : list byte :=
  [byte_of_Z u; byte_of_Z (u / 256); byte_of_Z (u / 65536); byte_of_Z (u / 16777216)].

Definition encode_u16 (u : Z) : list byte :=
  [byte_of_Z u; byte_of_Z (u / 256)].

Definition MAGIC : list byte := [x02; x01; x04; x03; x06; x05; x08; x07].

(** The sync pattern fills the 8 bytes of [data] from offset [i]. *)
Definition sync_at (data : list byte) (i : nat) : Prop :=
  take 8 (drop i data) = MAGIC.

(** The unsigned 32-bit little-endian number in [data] at [off .. off+3]. *)
Definition u32_le_at (data : list byte) (off : nat) : Z :=
  byte_val (nth off data x00)
  + 256 * byte_val (nth (off + 1) data x00)
  + 65536 * byte_val (nth (off + 2) data x00)
  + 16777216 * byte_val (nth (off + 3) data x00).

(** The header the layout describes for a frame that starts at [s]. *)
Definition header_at (data : list byte) (s : nat) : PacketInfo.t :=
  {| PacketInfo.header_start_index := Z.of_nat s;
     PacketInfo.packet_length := u32_le_at data (s + 12);
     PacketInfo.number_detected_objects := u32_le_at data (s + 28);
     PacketInfo.number_tlv := u32_le_at data (s + 32);
     PacketInfo.frame_number := u32_le_at data (s + 20);
     PacketInfo.sub_frame_number := u32_le_at data (s + 36);
     PacketInfo.time_cpu_cycles := u32_le_at data (s + 24) |}.

(** The outcome of a call of the entry point as its caller sees it: the
    exception, [None], or the returned references followed into the store
    the call left. *)
Definition observe (o : result (option (list loc)) * heap)
    : result (option (list (option DetectedObject.t))) :=
  match o.1 with
  | Ok (Some refs) => Ok (Some ((λ l, o.2 !! l) <$> refs))
  | Ok None => Ok None
  | Err e => Err e
  end.

(** References as they read when [base] objects precede them in the store. *)
Definition relocate (base : nat) (refs : list loc) : list loc :=
  (λ l, base + l)%nat <$> refs.

(** [m1] does, in a store that begins with [base] more objects, what [m0]
    does without them: the same changes behind the same outcome, [f]
    carrying the outcome of [m0] to that of [m1]. *)
Definition framed {A} (base : nat) (f : A → A) (m1 m0 : M A) : Prop :=
  ∀ h h0 : heap, length h = base →
    m1 (h ++ h0) = (f <$> (m0 h0).1, h ++ (m0 h0).2).

(** The unsigned 16-bit little-endian number in [data] at [off], [off+1]. *)
Definition u16_le_at (data : list byte) (off : nat) : Z :=
  byte_val (nth off data x00) + 256 * byte_val (nth (off + 1) data x00).

(** The binary32 number in [data] at [off .. off+3]. *)
Definition f32_at (data : list byte) (off : nat) : float :=
  float_of_bits32 (u32_le_at data off).

(** From some index on, the buffer holds nothing but first bytes of the
    sync pattern. *)
Definition partial_sync_tail (data : list byte) : bool :=
  existsb (λ i, bool_decide (drop i data = take (length data - i) MAGIC))
          (seq 0 (length data)).

(** *** The sub-packets, slot by slot

    What the two loops of [_parse_tlvs] compute for one slot, before they
    touch the object: the update of the slot whose bytes start at [pos]. *)

Definition kinematics (data : list byte) (pos : Z)
    : result (DetectedObject.t → DetectedObject.t) :=
  x ← unpack_f (py_slice data pos (pos + 4));
  y ← unpack_f (py_slice data (pos + 4) (pos + 8));
  z ← unpack_f (py_slice data (pos + 8) (pos + 12));
  v ← unpack_f (py_slice data (pos + 12) (pos + 16));
  computed_range ← MathUtils.get_range x y z;
  azimuth ← MathUtils.get_azimuth x y;
  elev_angle ← MathUtils.get_elev_angle x y z;
  Ok (DetectedObject.tlv_type_1 (PyFloat (Fl x)) (PyFloat (Fl y))
        (PyFloat (Fl z)) (PyFloat (Fl v)) (PyFloat computed_range)
        (PyFloat azimuth) (PyFloat elev_angle)).

Definition quality (data : list byte) (pos : Z)
    : result (DetectedObject.t → DetectedObject.t) :=
  snr ← BytesUtils.get_uint16 (py_slice data (pos + 0) (pos + 2));
  noise ← BytesUtils.get_uint16 (py_slice data (pos + 2) (pos + 4));
  Ok (DetectedObject.tlv_type_7 (PyInt snr) (PyInt noise)).

(** The objects [objs] after the slots at [pos], [pos + step], .. have
    updated them in order; the first slot that raises decides the error. *)
Fixpoint fill (slot : Z → result (DetectedObject.t → DetectedObject.t))
    (pos step : Z) (objs : list DetectedObject.t) : result (list DetectedObject.t) :=
  match objs with
  | [] => Ok []
  | o :: rest =>
      m ← slot pos;
      rest' ← fill slot (pos + step) step rest;
      Ok (m o :: rest')
  end.

(** The objects of a frame as a value: what [_parse_tlvs] is compared
    with. *)
Definition decode_tlvs (data : list byte) (pi : PacketInfo.t)
    : result (list DetectedObject.t) :=
  let objs := replicate (Z.to_nat (PacketInfo.number_detected_objects pi))
                DetectedObject.default in
  let tlv_start := PacketInfo.header_start_index pi + 40 in
  tlv_type ← BytesUtils.get_uint32 (py_slice data (tlv_start + 0) (tlv_start + 4));
  tlv_len ← BytesUtils.get_uint32 (py_slice data (tlv_start + 4) (tlv_start + 8));
  objs ← (if (tlv_type =? 1) && (tlv_len <? PacketInfo.packet_length pi)
          then fill (kinematics data) (tlv_start + 8) 16 objs
          else Ok objs);
  let tlv_start := tlv_start + 8 + tlv_len in
  tlv_type ← BytesUtils.get_uint32 (py_slice data (tlv_start + 0) (tlv_start + 4));
  tlv_len ← BytesUtils.get_uint32 (py_slice data (tlv_start + 4) (tlv_start + 8));
  if tlv_type =? 7 then fill (quality data) (tlv_start + 8) 4 objs else Ok objs.

(** *** What an object holds

    The attributes of an object whose slot of the type 1 sub-packet starts
    at [p], resp. whose slot of the type 7 sub-packet starts at [q], and
    the attributes of an object that a sub-packet did not touch. *)

Definition kinematics_of (data : list byte) (p : nat) (o : DetectedObject.t) : Prop :=
  let x := f32_at data p in
  let y := f32_at data (p + 4) in
  let z := f32_at data (p + 8) in
  (p + 16 ≤ length data)%nat
  ∧ DetectedObject.x o = PyFloat (Fl x)
  ∧ DetectedObject.y o = PyFloat (Fl y)
  ∧ DetectedObject.z o = PyFloat (Fl z)
  ∧ DetectedObject.v o = PyFloat (Fl (f32_at data (p + 12)))
  ∧ PyFloat <$> MathUtils.get_range x y z = Ok (DetectedObject.computed_range o)
  ∧ PyFloat <$> MathUtils.get_azimuth x y = Ok (DetectedObject.azimuth o)
  ∧ PyFloat <$> MathUtils.get_elev_angle x y z = Ok (DetectedObject.elev_angle o).

Definition no_kinematics (o : DetectedObject.t) : Prop :=
  DetectedObject.x o = DetectedObject.zero
  ∧ DetectedObject.y o = DetectedObject.zero
  ∧ DetectedObject.z o = DetectedObject.zero
  ∧ DetectedObject.v o = DetectedObject.zero
  ∧ DetectedObject.computed_range o = PyBuiltinRange
  ∧ DetectedObject.azimuth o = DetectedObject.zero
  ∧ DetectedObject.elev_angle o = DetectedObject.zero.

Definition quality_of (data : list byte) (q : nat) (o : DetectedObject.t) : Prop :=
  (q + 4 ≤ length data)%nat
  ∧ DetectedObject.snr o = PyInt (u16_le_at data q)
  ∧ DetectedObject.noise o = PyInt (u16_le_at data (q + 2)).

Definition no_quality (o : DetectedObject.t) : Prop :=
  DetectedObject.snr o = DetectedObject.zero
  ∧ DetectedObject.noise o = DetectedObject.zero.

(** A frame of one object at the start of a buffer: [(x, y, z, v)] is
    [(1, 1, 1, 0)] and [(snr, noise)] is [(100, 5)]. *)
Definition frame_one_object : list byte :=
  MAGIC ++ encode_u32 0 ++ encode_u32 76 ++ encode_u32 0 ++ encode_u32 1
  ++ encode_u32 0 ++ encode_u32 1 ++ encode_u32 2 ++ encode_u32 0
  ++ encode_u32 1 ++ encode_u32 16
  ++ [x00; x00; x80; x3f] ++ [x00; x00; x80; x3f] ++ [x00; x00; x80; x3f]
  ++ [x00; x00; x00; x00]
  ++ encode_u32 7 ++ encode_u32 4 ++ encode_u16 100 ++ encode_u16 5.

(** A frame of two objects whose first sub-packet has type 0 and no
    payload, followed by a type 7 sub-packet. *)
Definition frame_quality_only : list byte :=
  MAGIC ++ encode_u32 0 ++ encode_u32 64 ++ encode_u32 0 ++ encode_u32 1
  ++ encode_u32 0 ++ encode_u32 2 ++ encode_u32 2 ++ encode_u32 0
  ++ encode_u32 0 ++ encode_u32 0
  ++ encode_u32 7 ++ encode_u32 8
  ++ encode_u16 100 ++ encode_u16 5 ++ encode_u16 300 ++ encode_u16 7.

(** The outcome of the entry point as a value. *)
Definition decode (data : list byte) : result (option (list DetectedObject.t)) :=
  packet_info ← PacketHandler._parse_packet_info data;
  status ← PacketHandler._get_status data packet_info;
  match status with
  | TC_PASS => objs ← decode_tlvs data packet_info; Ok (Some objs)
  | TC_FAIL => Ok None
  end.

(** * Properties *)

(** ** Bytes and slices *)

Lemma byte_val_inj (a b : byte) : byte_val a = byte_val b → a = b.
Proof.
  unfold byte_val. intros H%(inj Z.of_N).
  pose proof (Byte.of_to_N a) as Ha. rewrite H, Byte.of_to_N in Ha.
  congruence.
Qed.

Lemma byte_val_of_Z (n : Z) : byte_val (byte_of_Z n) = n mod 256.
Proof.
  unfold byte_val, byte_of_Z.
  pose proof (Z.mod_pos_bound n 256 eq_refl) as Hn.
  destruct (Byte.of_N (Z.to_N (n mod 256))) as [b|] eqn:E.
  - apply Byte.to_of_N in E. rewrite E. lia.
  - apply Byte.of_N_None_iff in E. lia.
Qed.

(** A slice between two bounds that are not negative is the plain window. *)
Lemma py_slice_nonneg {A} (data : list A) (lo hi : Z) :
  0 ≤ lo → 0 ≤ hi →
  py_slice data lo hi = take (Z.to_nat (hi - lo)) (drop (Z.to_nat lo) data).
Proof.
  intros Hlo Hhi. unfold py_slice, clamp.
  destruct (Z.ltb_spec lo 0); [lia|]. destruct (Z.ltb_spec hi 0); [lia|].
  set (len := Z.of_nat (length data)).
  destruct (Z.le_gt_cases lo len) as [Hl|Hl].
  - rewrite (Z.min_l lo) by lia.
    destruct (Z.le_gt_cases hi len) as [Hh|Hh].
    + by rewrite (Z.min_l hi) by lia.
    + rewrite (Z.min_r hi) by lia.
      rewrite !take_ge; [done | |]; rewrite length_drop; subst len; lia.
  - rewrite (Z.min_r lo) by lia.
    rewrite !drop_ge by (subst len; lia). by rewrite !take_nil.
Qed.

Lemma py_slice_window {A} (data : list A) (i n : nat) :
  py_slice data (Z.of_nat i) (Z.of_nat i + Z.of_nat n) = take n (drop i data).
Proof.
  rewrite py_slice_nonneg by lia. f_equal; [lia|]. f_equal. lia.
Qed.

(** The window is complete exactly when the buffer reaches its end. *)
Lemma window_length {A} (data : list A) (i n : nat) :
  (i + n ≤ length data)%nat → length (take n (drop i data)) = n.
Proof. intros. rewrite length_take, length_drop. lia. Qed.

Lemma sync_at_bound (data : list byte) (i : nat) :
  sync_at data i → (i + 8 ≤ length data)%nat.
Proof.
  unfold sync_at. intros H%(f_equal length).
  rewrite length_take, length_drop in H.
  change (length MAGIC) with 8%nat in H. lia.
Qed.

Lemma byte_at_lookup (data : list byte) (i : Z) (b : byte) :
  0 ≤ i → data !! Z.to_nat i = Some b → byte_at data i = Ok (byte_val b).
Proof.
  intros Hi Hb. unfold byte_at, py_getitem.
  destruct (Z.ltb_spec i 0); [lia|]. destruct (Z.ltb_spec i 0); [lia|].
  by rewrite Hb.
Qed.

(** ** BytesUtils *)

Lemma byte_is_lookup (data : list byte) (i v : Z) (b : byte) :
  0 ≤ i → data !! Z.to_nat i = Some b →
  BytesUtils.byte_is data i v = Ok (byte_val b =? v).
Proof.
  intros Hi Hb. unfold BytesUtils.byte_is. by rewrite (byte_at_lookup _ _ b).
Qed.

Lemma and_then_Ok (c : bool) (r : result bool) :
  BytesUtils.and_then (Ok c) r = if c then r else Ok false.
Proof. reflexivity. Qed.

(** Case analysis on the next comparison of a byte with a constant of the
    pattern: either the byte is that constant, or the goal's two sides are
    both the "no match" outcome. *)
Ltac magic_step :=
  match goal with
  | |- context [byte_val ?b =? ?v] =>
      destruct (Z.eqb_spec (byte_val b) v)
        as [->%(byte_val_inj b (byte_of_Z v))|Hne];
      [cbn [byte_of_Z]
      |rewrite bool_decide_eq_false_2;
       [reflexivity | intros [=]; subst; by apply Hne]]
  end.

(** On a complete window the pattern check does not raise, and answers 1
    exactly on the sync pattern. *)
Lemma check_magic_pattern_full (w : list byte) :
  length w = 8%nat →
  BytesUtils.check_magic_pattern w = Ok (if bool_decide (w = MAGIC) then 1 else 0).
Proof.
  intros Hw.
  do 8 (destruct w as [|? w]; [discriminate Hw|]).
  destruct w; [|discriminate Hw]. clear Hw.
  unfold BytesUtils.check_magic_pattern, MAGIC.
  repeat (erewrite byte_is_lookup by (first [lia | reflexivity]);
          try rewrite and_then_Ok).
  repeat magic_step.
  by rewrite bool_decide_eq_true_2.
Qed.

Lemma get_uint32_4 (b0 b1 b2 b3 : byte) :
  BytesUtils.get_uint32 [b0; b1; b2; b3]
  = Ok (byte_val b0 + byte_val b1 * 256 + byte_val b2 * 65536
        + byte_val b3 * 16777216).
Proof. reflexivity. Qed.

Lemma get_uint16_2 (b0 b1 : byte) :
  BytesUtils.get_uint16 [b0; b1] = Ok (byte_val b0 + byte_val b1 * 256).
Proof. reflexivity. Qed.

(** Reading 4 bytes that the buffer has gives the little-endian number
    there. *)
Lemma get_uint32_window (data : list byte) (off : nat) :
  (off + 4 ≤ length data)%nat →
  BytesUtils.get_uint32 (take 4 (drop off data)) = Ok (u32_le_at data off).
Proof.
  intros Hlen. unfold u32_le_at. rewrite !nth_lookup.
  rewrite <- (Nat.add_0_r off) at 2. rewrite <- !lookup_drop.
  pose proof (length_drop data off) as Hd.
  destruct (drop off data) as [|b0 [|b1 [|b2 [|b3 rest]]]]; simpl in Hd; try lia.
  cbn [take]. rewrite get_uint32_4. cbn. f_equal. lia.
Qed.

(** Reading 4 bytes where the buffer has fewer raises [IndexError]. *)
Lemma get_uint32_short (w : list byte) :
  (length w < 4)%nat → BytesUtils.get_uint32 w = Err IndexError.
Proof.
  intros Hw.
  destruct w as [|b0 [|b1 [|b2 [|b3 rest]]]]; simpl in Hw; try lia; reflexivity.
Qed.

(** C8. Integer round trip: a number below 2^32 written as 4 little-endian
    bytes is read back by [get_uint32], and a number below 2^16 written as
    2 little-endian bytes is read back by [get_uint16]. *)
Theorem uint_round_trip (u v : Z) :
  0 ≤ u < 2 ^ 32 → 0 ≤ v < 2 ^ 16 →
  BytesUtils.get_uint32 (encode_u32 u) = Ok u
  ∧ BytesUtils.get_uint16 (encode_u16 v) = Ok v.
Proof.
  intros Hu Hv. unfold encode_u32, encode_u16.
  rewrite get_uint32_4, get_uint16_2, !byte_val_of_Z.
  split; f_equal.
  - change (2 ^ 32) with 4294967296 in Hu.
    Z.div_mod_to_equations. lia.
  - change (2 ^ 16) with 65536 in Hv.
    Z.div_mod_to_equations. lia.
Qed.

Lemma uint_round_trip_witness :
  BytesUtils.get_uint32 (encode_u32 305419896) = Ok 305419896
  ∧ BytesUtils.get_uint16 (encode_u16 4660) = Ok 4660.
Proof. apply (uint_round_trip 305419896 4660); lia. Defined.

(** ** Locating and parsing the header *)

Lemma rbind_Ok {A B} (a : A) (k : A → result B) : (Ok a ≫= k) = k a.
Proof. reflexivity. Qed.

Lemma rbind_Err {A B} (e : pyerr) (k : A → result B) : (Err e ≫= k) = Err e.
Proof. reflexivity. Qed.

Lemma py_slice_window8 (data : list byte) (i : nat) :
  py_slice data (Z.of_nat i) (Z.of_nat i + 8) = take 8 (drop i data).
Proof. apply (py_slice_window data i 8). Qed.

(** The header's reads, [k] bytes after the start [s] of the header. *)
Lemma py_slice_field (data : list byte) (s : nat) (k : Z) :
  0 ≤ k →
  py_slice data (Z.of_nat s + k) (Z.of_nat s + (k + 4))
  = take 4 (drop (s + Z.to_nat k) data).
Proof.
  intros Hk. rewrite py_slice_nonneg by lia. f_equal; [lia|]. f_equal. lia.
Qed.

(** The scan over the indices [a, a+1, ..] stops at the first sync at or
    after [a]. *)
Lemma find_header_start_first (data : list byte) (i : nat) :
  sync_at data i →
  (∀ j, (j < i)%nat → ¬ sync_at data j) →
  ∀ n a d, (a ≤ i < a + n)%nat →
    PacketHandler.find_header_start data (Z.of_nat <$> seq a n) d = Ok (Z.of_nat i).
Proof.
  intros Hi Hfirst. pose proof (sync_at_bound _ _ Hi) as Hlen.
  induction n as [|n IH]; intros a d Ha; [lia|].
  cbn [seq]. rewrite fmap_cons. cbn [PacketHandler.find_header_start].
  rewrite py_slice_window8, check_magic_pattern_full
    by (apply window_length; lia).
  rewrite rbind_Ok.
  destruct (decide (a = i)) as [->|Hne].
  - by rewrite bool_decide_eq_true_2.
  - rewrite bool_decide_eq_false_2 by (apply Hfirst; lia).
    cbn [Z.eqb]. apply IH. lia.
Qed.

(** When no window of the visited indices answers 1 and none raises, the
    scan leaves [header_start_index] as it was. *)
Lemma find_header_start_none (data : list byte) (indices : list Z) (d : Z) :
  Forall (λ index, BytesUtils.check_magic_pattern
                     (py_slice data index (index + 8)) = Ok 0) indices →
  PacketHandler.find_header_start data indices d = Ok d.
Proof.
  induction 1 as [|index rest Hhd _ IH]; [done|].
  cbn [PacketHandler.find_header_start]. by rewrite Hhd, rbind_Ok.
Qed.

Lemma scan_first (data : list byte) (i : nat) :
  sync_at data i →
  (∀ j, (j < i)%nat → ¬ sync_at data j) →
  PacketHandler.find_header_start data (py_range (Z.of_nat (length data))) (-1)
  = Ok (Z.of_nat i).
Proof.
  intros Hi Hfirst. pose proof (sync_at_bound _ _ Hi).
  unfold py_range. rewrite Nat2Z.id.
  apply (find_header_start_first data i); [done..|lia].
Qed.

(** Once the scan has settled on [s], a header that is returned starts
    at [s]. *)
Lemma parse_packet_info_start (data : list byte) (s : Z) (pi : PacketInfo.t) :
  PacketHandler.find_header_start data (py_range (Z.of_nat (length data))) (-1) = Ok s →
  s ≠ -1 →
  PacketHandler._parse_packet_info data = Ok pi →
  PacketInfo.header_start_index pi = s.
Proof.
  intros Hscan Hs. unfold PacketHandler._parse_packet_info.
  rewrite Hscan, rbind_Ok.
  destruct (Z.eqb_spec s (-1)) as [|_]; [done|]. cbn [negb].
  repeat match goal with
  | |- context [BytesUtils.get_uint32 ?w] =>
      destruct (BytesUtils.get_uint32 w); [rewrite rbind_Ok | by rewrite rbind_Err]
  end.
  by intros [= <-].
Qed.

(** With the first sync at [s] and 40 bytes from there, the header is the
    one the layout describes. *)
Lemma parse_packet_info_located (data : list byte) (s : nat) :
  sync_at data s →
  (∀ j, (j < s)%nat → ¬ sync_at data j) →
  (s + 40 ≤ length data)%nat →
  PacketHandler._parse_packet_info data = Ok (header_at data s).
Proof.
  intros Hs Hfirst Hlen. unfold PacketHandler._parse_packet_info.
  rewrite (scan_first data s) by done. rewrite rbind_Ok.
  destruct (Z.eqb_spec (Z.of_nat s) (-1)) as [|_]; [lia|]. cbn [negb].
  rewrite !(py_slice_field data s) by lia.
  rewrite !get_uint32_window by (cbn; lia).
  reflexivity.
Qed.

(** With the first sync at [s] and fewer than 40 bytes from there, no
    header is returned: one of the six reads raises. *)
Lemma parse_packet_info_truncated (data : list byte) (s : nat) :
  sync_at data s →
  (∀ j, (j < s)%nat → ¬ sync_at data j) →
  (length data < s + 40)%nat →
  PacketHandler._parse_packet_info data = Err IndexError.
Proof.
  intros Hs Hfirst Hlen. unfold PacketHandler._parse_packet_info.
  rewrite (scan_first data s) by done. rewrite rbind_Ok.
  destruct (Z.eqb_spec (Z.of_nat s) (-1)) as [|_]; [lia|]. cbn [negb].
  rewrite !(py_slice_field data s) by lia.
  repeat match goal with
  | |- context [BytesUtils.get_uint32 (take 4 (drop ?off data))] =>
      destruct (decide (off + 4 ≤ length data)%nat);
      [rewrite (get_uint32_window data off) by done; rewrite rbind_Ok
      |rewrite (get_uint32_short (take 4 (drop off data)))
         by (rewrite length_take, length_drop; lia);
       reflexivity]
  end.
  change (Z.to_nat 36) with 36%nat in *. lia.
Qed.

(** C6. Sync detection: when the sync pattern stands at index [i] and at no
    smaller index, the scan of the header parser settles on [i]: its loop
    ends with [header_start_index = i], every header the parser returns
    starts at [i], and it does return one when 40 bytes follow [i]. *)
Theorem sync_scan_finds_first (data : list byte) (i : nat) :
  sync_at data i →
  (∀ j, (j < i)%nat → ¬ sync_at data j) →
  PacketHandler.find_header_start data (py_range (Z.of_nat (length data))) (-1)
    = Ok (Z.of_nat i)
  ∧ (∀ pi, PacketHandler._parse_packet_info data = Ok pi →
           PacketInfo.header_start_index pi = Z.of_nat i)
  ∧ ((i + 40 ≤ length data)%nat →
     ∃ pi, PacketHandler._parse_packet_info data = Ok pi
           ∧ PacketInfo.header_start_index pi = Z.of_nat i).
Proof.
  intros Hi Hfirst. pose proof (scan_first data i Hi Hfirst) as Hscan.
  split; [exact Hscan|]. split.
  - intros pi Hpi. apply (parse_packet_info_start data _ pi Hscan); [lia|done].
  - intros Hlen. exists (header_at data i).
    split; [by apply parse_packet_info_located | reflexivity].
Qed.

Lemma sync_scan_finds_first_witness :
  let data := [x07; x02] ++ MAGIC ++ replicate 32 x00 in
  PacketHandler.find_header_start data (py_range (Z.of_nat (length data))) (-1)
    = Ok 2
  ∧ (∀ pi, PacketHandler._parse_packet_info data = Ok pi →
           PacketInfo.header_start_index pi = 2)
  ∧ ((2 + 40 ≤ length data)%nat →
     ∃ pi, PacketHandler._parse_packet_info data = Ok pi
           ∧ PacketInfo.header_start_index pi = 2).
Proof.
  apply (sync_scan_finds_first ([x07; x02] ++ MAGIC ++ replicate 32 x00) 2).
  - reflexivity.
  - intros [|[|j]] Hj; [discriminate | discriminate | lia].
Defined.

(** C7, as amended. Header extraction: when the first sync pattern of the
    buffer stands at offset [s] and 40 bytes are available from [s], the
    parser returns a header that starts at [s] and whose fields are the
    unsigned 32-bit little-endian numbers at the fixed ranges after [s]. *)
Theorem header_fields_at_first_sync (data : list byte) (s : nat) :
  sync_at data s →
  (∀ j, (j < s)%nat → ¬ sync_at data j) →
  (s + 40 ≤ length data)%nat →
  ∃ pi, PacketHandler._parse_packet_info data = Ok pi
    ∧ PacketInfo.header_start_index pi = Z.of_nat s
    ∧ PacketInfo.packet_length pi = u32_le_at data (s + 12)
    ∧ PacketInfo.frame_number pi = u32_le_at data (s + 20)
    ∧ PacketInfo.time_cpu_cycles pi = u32_le_at data (s + 24)
    ∧ PacketInfo.number_detected_objects pi = u32_le_at data (s + 28)
    ∧ PacketInfo.number_tlv pi = u32_le_at data (s + 32)
    ∧ PacketInfo.sub_frame_number pi = u32_le_at data (s + 36).
Proof.
  intros Hs Hfirst Hlen. exists (header_at data s).
  split; [by apply parse_packet_info_located | by repeat split].
Qed.

Lemma header_fields_at_first_sync_witness :
  let data := [x07] ++ MAGIC ++ encode_u32 3 ++ encode_u32 76 ++ encode_u32 0
              ++ encode_u32 500 ++ encode_u32 70000 ++ encode_u32 1
              ++ encode_u32 2 ++ encode_u32 3 in
  ∃ pi, PacketHandler._parse_packet_info data = Ok pi
    ∧ PacketInfo.header_start_index pi = 1
    ∧ PacketInfo.packet_length pi = u32_le_at data (1 + 12)
    ∧ PacketInfo.frame_number pi = u32_le_at data (1 + 20)
    ∧ PacketInfo.time_cpu_cycles pi = u32_le_at data (1 + 24)
    ∧ PacketInfo.number_detected_objects pi = u32_le_at data (1 + 28)
    ∧ PacketInfo.number_tlv pi = u32_le_at data (1 + 32)
    ∧ PacketInfo.sub_frame_number pi = u32_le_at data (1 + 36).
Proof.
  apply (header_fields_at_first_sync
           ([x07] ++ MAGIC ++ encode_u32 3 ++ encode_u32 76 ++ encode_u32 0
            ++ encode_u32 500 ++ encode_u32 70000 ++ encode_u32 1
            ++ encode_u32 2 ++ encode_u32 3) 1).
  - reflexivity.
  - intros [|j] Hj; [discriminate | lia].
  - vm_compute. lia.
Defined.

(** C7, as stated, fails when the sync pattern at [s] is not the first one:
    the header is read at the first one. Here a sync pattern stands at
    offset 8 with 40 bytes after it, yet the header starts at 0 and its
    [packet_length] is not the number at offsets 20..23. *)
Lemma header_fields_second_sync_counterexample :
  let data := MAGIC ++ MAGIC ++ replicate 40 x00 in
  sync_at data 8
  ∧ (8 + 40 ≤ length data)%nat
  ∧ ∃ pi, PacketHandler._parse_packet_info data = Ok pi
      ∧ PacketInfo.header_start_index pi = 0
      ∧ PacketInfo.packet_length pi = 117966086
      ∧ u32_le_at data (8 + 12) = 0.
Proof.
  cbv zeta. split; [reflexivity|]. split; [vm_compute; lia|].
  eexists. split; [vm_compute; reflexivity|]. by repeat split.
Qed.

(** ** The validator *)

(** C5. A header that starts at an index that is not negative, with a
    count that is not negative, a sub-frame number of at most 3 and a
    declared frame that fits the buffer, passes: the guard of the
    next-frame check, [header_start_index + packet_length + 8 <
    packet_length], is false for it, so the pattern check is never
    evaluated, and every buffer of the same length is classified alike. *)
Theorem get_status_pass (data : list byte) (pi : PacketInfo.t) :
  0 ≤ PacketInfo.header_start_index pi →
  0 ≤ PacketInfo.number_detected_objects pi →
  PacketInfo.sub_frame_number pi ≤ 3 →
  PacketInfo.header_start_index pi + PacketInfo.packet_length pi
    ≤ Z.of_nat (length data) →
  (PacketInfo.header_start_index pi + PacketInfo.packet_length pi + 8
     <? PacketInfo.packet_length pi) = false
  ∧ PacketHandler._get_status data pi = Ok TC_PASS
  ∧ ∀ data' : list byte, length data' = length data →
      PacketHandler._get_status data' pi = Ok TC_PASS.
Proof.
  intros Hs Hn Hsub Hlen.
  assert (Hguard : (PacketInfo.header_start_index pi + PacketInfo.packet_length pi + 8
                      <? PacketInfo.packet_length pi) = false)
    by (apply Z.ltb_ge; lia).
  assert (Hpass : ∀ data' : list byte, length data' = length data →
                    PacketHandler._get_status data' pi = Ok TC_PASS).
  { intros data' Hlen'. unfold PacketHandler._get_status.
    destruct (Z.eqb_spec (PacketInfo.header_start_index pi) (-1)); [lia|].
    destruct (Z.ltb_spec (PacketInfo.number_detected_objects pi) 0); [lia|].
    destruct (Z.gtb_spec (PacketInfo.sub_frame_number pi) 3); [lia|].
    rewrite Hlen'.
    destruct (Z.gtb_spec (PacketInfo.header_start_index pi + PacketInfo.packet_length pi)
                (Z.of_nat (length data))); [lia|].
    cbv zeta. by rewrite Hguard, and_then_Ok, rbind_Ok. }
  split; [exact Hguard|]. split; [by apply Hpass | exact Hpass].
Qed.

Lemma get_status_pass_witness :
  let data := replicate 40 xff in
  let pi := PacketInfo.init 0 40 0 0 0 3 0 in
  (PacketInfo.header_start_index pi + PacketInfo.packet_length pi + 8
     <? PacketInfo.packet_length pi) = false
  ∧ PacketHandler._get_status data pi = Ok TC_PASS
  ∧ ∀ data' : list byte, length data' = length data →
      PacketHandler._get_status data' pi = Ok TC_PASS.
Proof.
  apply (get_status_pass (replicate 40 xff) (PacketInfo.init 0 40 0 0 0 3 0));
    vm_compute; discriminate.
Defined.

(** C4. Boundary mismatch: for a header that is not the sentinel and passes
    the first four checks, when [header_start_index + packet_length + 8 <
    packet_length] and the 8 bytes of the slice at
    [header_start_index + packet_length] are not the sync pattern, the
    status is Fail. *)
Theorem get_status_boundary_mismatch (data : list byte) (pi : PacketInfo.t) :
  let next_header_start_index :=
    PacketInfo.header_start_index pi + PacketInfo.packet_length pi in
  let window := py_slice data next_header_start_index (next_header_start_index + 8) in
  PacketInfo.header_start_index pi ≠ -1 →
  0 ≤ PacketInfo.number_detected_objects pi →
  PacketInfo.sub_frame_number pi ≤ 3 →
  next_header_start_index ≤ Z.of_nat (length data) →
  next_header_start_index + 8 < PacketInfo.packet_length pi →
  length window = 8%nat →
  window ≠ MAGIC →
  PacketHandler._get_status data pi = Ok TC_FAIL.
Proof.
  intros next window Hs Hn Hsub Hlen Hguard Hw Hne.
  unfold PacketHandler._get_status.
  destruct (Z.eqb_spec (PacketInfo.header_start_index pi) (-1)); [done|].
  destruct (Z.ltb_spec (PacketInfo.number_detected_objects pi) 0); [lia|].
  destruct (Z.gtb_spec (PacketInfo.sub_frame_number pi) 3); [lia|].
  destruct (Z.gtb_spec (PacketInfo.header_start_index pi + PacketInfo.packet_length pi)
              (Z.of_nat (length data))); [done|].
  cbv zeta. fold next. fold window.
  destruct (Z.ltb_spec (next + 8) (PacketInfo.packet_length pi)); [|lia].
  rewrite and_then_Ok, check_magic_pattern_full by done.
  by rewrite bool_decide_eq_false_2.
Qed.

Lemma get_status_boundary_mismatch_witness :
  PacketHandler._get_status (replicate 10 x00) (PacketInfo.init (-9) 0 0 0 0 0 0)
  = Ok TC_FAIL.
Proof.
  apply (get_status_boundary_mismatch (replicate 10 x00)
           (PacketInfo.init (-9) 0 0 0 0 0 0));
    vm_compute; (discriminate || reflexivity).
Defined.

(** Whatever else a header says, a declared frame that ends beyond the
    buffer fails. *)
Lemma get_status_truncated (data : list byte) (pi : PacketInfo.t) :
  PacketInfo.header_start_index pi + PacketInfo.packet_length pi
    > Z.of_nat (length data) →
  PacketHandler._get_status data pi = Ok TC_FAIL.
Proof.
  intros Hlen. unfold PacketHandler._get_status.
  destruct (_ =? _); [done|]. destruct (_ <? _); [done|]. destruct (_ >? _); [done|].
  destruct (Z.gtb_spec (PacketInfo.header_start_index pi + PacketInfo.packet_length pi)
              (Z.of_nat (length data))); [done|lia].
Qed.

(** ** The entry point *)

Lemma mbind_lift_Ok {A B} (a : A) (k : A → M B) (h : heap) :
  (lift (Ok a) ≫= k) h = k a h.
Proof. reflexivity. Qed.

(** A header that fails makes the entry point return [None] and leave the
    store alone. *)
Lemma parser_fail (data : list byte) (pi : PacketInfo.t) (h : heap) :
  PacketHandler._parse_packet_info data = Ok pi →
  PacketHandler._get_status data pi = Ok TC_FAIL →
  PacketHandler.parser data h = (Ok None, h).
Proof.
  intros Hpi Hst. unfold PacketHandler.parser.
  by rewrite Hpi, mbind_lift_Ok, Hst, mbind_lift_Ok.
Qed.

(** C9. Truncation rejection: a header returned by the header parser whose
    declared [packet_length] reaches beyond the buffer is classified Fail,
    and the entry point returns [None]. *)
Theorem truncated_frame_rejected (data : list byte) (pi : PacketInfo.t) (h : heap) :
  PacketHandler._parse_packet_info data = Ok pi →
  PacketInfo.header_start_index pi + PacketInfo.packet_length pi
    > Z.of_nat (length data) →
  PacketHandler._get_status data pi = Ok TC_FAIL
  ∧ PacketHandler.parser data h = (Ok None, h).
Proof.
  intros Hpi Hlen. pose proof (get_status_truncated data pi Hlen) as Hst.
  split; [exact Hst | by apply (parser_fail data pi)].
Qed.

Lemma truncated_frame_rejected_witness :
  let data := [x00; x00] ++ MAGIC ++ encode_u32 0 ++ encode_u32 77 ++ encode_u32 0
              ++ encode_u32 1 ++ encode_u32 2 ++ encode_u32 1 ++ encode_u32 2
              ++ encode_u32 0 ++ replicate 34 x00 in
  PacketHandler._get_status data (PacketInfo.init 2 77 1 2 1 0 2) = Ok TC_FAIL
  ∧ PacketHandler.parser data [] = (Ok None, []).
Proof.
  apply (truncated_frame_rejected
           ([x00; x00] ++ MAGIC ++ encode_u32 0 ++ encode_u32 77 ++ encode_u32 0
            ++ encode_u32 1 ++ encode_u32 2 ++ encode_u32 1 ++ encode_u32 2
            ++ encode_u32 0 ++ replicate 34 x00)
           (PacketInfo.init 2 77 1 2 1 0 2) []);
    vm_compute; reflexivity.
Defined.

(** When every window of the scan is answered 0, the header is the
    sentinel, the status Fail and the outcome [None]. *)
Lemma parser_no_match (data : list byte) (h : heap) :
  Forall (λ index, BytesUtils.check_magic_pattern
                     (py_slice data index (index + 8)) = Ok 0)
         (py_range (Z.of_nat (length data))) →
  PacketHandler._parse_packet_info data = Ok PacketInfo.default
  ∧ PacketHandler._get_status data PacketInfo.default = Ok TC_FAIL
  ∧ PacketHandler.parser data h = (Ok None, h).
Proof.
  intros Hall.
  assert (Hpi : PacketHandler._parse_packet_info data = Ok PacketInfo.default).
  { unfold PacketHandler._parse_packet_info.
    by rewrite (find_header_start_none _ _ _ Hall), rbind_Ok. }
  split; [exact Hpi|]. split; [reflexivity|].
  by apply (parser_fail data PacketInfo.default).
Qed.

(** C2. The entry point raises on buffers it can be given: [IndexError]
    when the buffer ends inside a sync pattern, and when a frame that
    passes validation stops after its header; [struct.error] when the
    payload of a type 1 sub-packet is cut short. *)
Theorem parser_raises :
  PacketHandler.parser [x02] [] = (Err IndexError, [])
  ∧ PacketHandler.parser
      (MAGIC ++ encode_u32 0 ++ encode_u32 40 ++ encode_u32 0 ++ encode_u32 1
       ++ encode_u32 0 ++ encode_u32 0 ++ encode_u32 0 ++ encode_u32 0) []
    = (Err IndexError, [])
  ∧ (PacketHandler.parser
       (MAGIC ++ encode_u32 0 ++ encode_u32 48 ++ encode_u32 0 ++ encode_u32 1
        ++ encode_u32 0 ++ encode_u32 1 ++ encode_u32 2 ++ encode_u32 0
        ++ encode_u32 1 ++ encode_u32 16) []).1
    = Err StructError.
Proof. split; [|split]; vm_compute; reflexivity. Qed.

(** C3. A buffer that holds the sync pattern at no offset but ends with the
    first bytes of one: the entry point raises [IndexError] where [None] is
    expected, and no header, sentinel or other, is produced. *)
Theorem parser_no_sync_raises :
  let data := [x09; x02; x01; x04] in
  (∀ i, ¬ sync_at data i)
  ∧ PacketHandler._parse_packet_info data = Err IndexError
  ∧ PacketHandler.parser data [] = (Err IndexError, []).
Proof.
  cbv zeta. split; [|split; vm_compute; reflexivity].
  intros i Hi%sync_at_bound. simpl in Hi. lia.
Qed.

(** ** The object store across calls *)

Section Framing.

Variable base : nat.

Lemma framed_ret {A} (f : A → A) (a : A) : framed base f (mret (f a)) (mret a).
Proof. by intros h h0 _. Qed.

Lemma framed_lift {A} (r : result A) : framed base id (lift r) (lift r).
Proof. intros h h0 _. unfold lift. by destruct r. Qed.

Lemma framed_bind {A B} (f : A → A) (g : B → B) (m1 m0 : M A) (k1 k0 : A → M B) :
  framed base f m1 m0 →
  (∀ a, framed base g (k1 (f a)) (k0 a)) →
  framed base g (m1 ≫= k1) (m0 ≫= k0).
Proof.
  intros Hm Hk h h0 Hh. unfold mbind, M_bind.
  rewrite (Hm h h0 Hh). destruct (m0 h0) as [[a|e] h0']; cbn [fst snd fmap result_fmap].
  - apply (Hk a h h0' Hh).
  - reflexivity.
Qed.

Lemma framed_alloc (o : DetectedObject.t) :
  framed base (λ l, base + l)%nat (alloc o) (alloc o).
Proof.
  intros h h0 Hh. unfold alloc. cbn [fst snd fmap result_fmap].
  subst base. by rewrite length_app, <- (assoc_L (++)).
Qed.

Lemma framed_update (l : loc) (method : DetectedObject.t → DetectedObject.t) :
  framed base id (update (base + l)%nat method) (update l method).
Proof.
  intros h h0 Hh. unfold update. cbn [fst snd fmap result_fmap].
  subst base. by rewrite alter_app_r.
Qed.

Lemma framed_for_in {S} (f : S → S) (xs : list Z) (body1 body0 : Z → S → M S) :
  (∀ i s, framed base f (body1 i (f s)) (body0 i s)) →
  ∀ s, framed base f (for_in xs body1 (f s)) (for_in xs body0 s).
Proof.
  intros Hbody. induction xs as [|i xs IH]; intros s; cbn [for_in].
  - apply framed_ret.
  - eapply framed_bind; [apply Hbody | apply IH].
Qed.

Lemma py_getitem_relocate (refs : list loc) (i : Z) :
  py_getitem (relocate base refs) i = (λ l, base + l)%nat <$> py_getitem refs i.
Proof.
  unfold py_getitem, relocate. rewrite length_fmap, list_lookup_fmap.
  destruct (_ <? _); [reflexivity|]. by destruct (refs !! _).
Qed.

Lemma relocate_app (refs : list loc) (l : loc) :
  relocate base (refs ++ [l]) = relocate base refs ++ [(base + l)%nat].
Proof. unfold relocate. by rewrite fmap_app. Qed.

Lemma framed_allocate (n : Z) (refs : list loc) :
  framed base (relocate base)
    (PacketHandler.allocate n (relocate base refs)) (PacketHandler.allocate n refs).
Proof.
  unfold PacketHandler.allocate. apply framed_for_in. intros _ s.
  eapply framed_bind; [apply framed_alloc|]. intros l.
  rewrite <- relocate_app. apply framed_ret.
Qed.

Lemma framed_lift_fmap {A} (f : A → A) (r : result A) :
  framed base f (lift (f <$> r)) (lift r).
Proof. by intros h h0 _. Qed.

(** One statement that does not touch the store, then the rest. *)
Ltac framed_lift_step :=
  eapply (framed_bind id); [apply framed_lift | intros ?; cbn beta delta [id]].

Lemma framed_tlv_1_body (data : list byte) (refs : list loc) (tlv_start obj offset : Z) :
  framed base id
    (PacketHandler.tlv_1_body data (relocate base refs) tlv_start obj offset)
    (PacketHandler.tlv_1_body data refs tlv_start obj offset).
Proof.
  unfold PacketHandler.tlv_1_body. do 7 framed_lift_step.
  rewrite py_getitem_relocate.
  eapply framed_bind; [apply framed_lift_fmap | intros o].
  eapply (framed_bind id); [apply framed_update | intros _].
  apply (framed_ret id).
Qed.

Lemma framed_tlv_7_body (data : list byte) (refs : list loc) (tlv_start obj offset : Z) :
  framed base id
    (PacketHandler.tlv_7_body data (relocate base refs) tlv_start obj offset)
    (PacketHandler.tlv_7_body data refs tlv_start obj offset).
Proof.
  unfold PacketHandler.tlv_7_body. do 2 framed_lift_step.
  rewrite py_getitem_relocate.
  eapply framed_bind; [apply framed_lift_fmap | intros o].
  eapply (framed_bind id); [apply framed_update | intros _].
  apply (framed_ret id).
Qed.

Lemma framed_parse_tlvs (data : list byte) (pi : PacketInfo.t) :
  framed base (relocate base)
    (PacketHandler._parse_tlvs data pi) (PacketHandler._parse_tlvs data pi).
Proof.
  unfold PacketHandler._parse_tlvs.
  eapply framed_bind;
    [apply (framed_allocate (PacketInfo.number_detected_objects pi) []) | intros refs].
  cbv zeta. do 2 framed_lift_step.
  eapply (framed_bind id).
  { destruct (_ && _); [|apply (framed_ret id)].
    apply (framed_for_in id). intros obj offset. apply framed_tlv_1_body. }
  intros _. do 2 framed_lift_step.
  eapply (framed_bind id).
  { destruct (_ =? _); [|apply (framed_ret id)].
    apply (framed_for_in id). intros obj offset. apply framed_tlv_7_body. }
  intros _. apply framed_ret.
Qed.

Lemma framed_parser (data : list byte) :
  framed base (fmap (relocate base))
    (PacketHandler.parser data) (PacketHandler.parser data).
Proof.
  unfold PacketHandler.parser. do 2 framed_lift_step.
  match goal with |- context [match ?st with TC_PASS => _ | TC_FAIL => _ end] =>
    destruct st end.
  - eapply framed_bind; [apply framed_parse_tlvs | intros refs].
    by intros h h0 _.
  - by intros h h0 _.
Qed.

End Framing.

(** A call in a store [h] is the call in the empty store, behind [h]. *)
Lemma parser_frame (data : list byte) (h : heap) :
  PacketHandler.parser data h
  = (fmap (M := option) (relocate (length h)) <$> (PacketHandler.parser data []).1,
     h ++ (PacketHandler.parser data []).2).
Proof.
  rewrite <- (app_nil_r h) at 1. by apply framed_parser.
Qed.

Lemma observe_parser (data : list byte) (h : heap) :
  observe (PacketHandler.parser data h) = observe (PacketHandler.parser data []).
Proof.
  rewrite parser_frame. unfold observe.
  destruct (PacketHandler.parser data []) as [[[refs|]|e] h0];
    cbn [fst snd fmap result_fmap option_fmap option_map]; [|done..].
  do 2 f_equal. unfold relocate. rewrite <- list_fmap_compose.
  apply list_fmap_ext. intros _ l _. cbn.
  rewrite lookup_app_r by lia. f_equal. lia.
Qed.

(** C10. The outcome of the entry point on a buffer is the same in every
    store: the same exception, or [None], or objects equal field for field
    in the same order; and a call leaves the objects that were in the store
    as they were, adding its own behind them. So a second call on the same
    buffer, in the store the first one left, has the same outcome. *)
Theorem parser_deterministic (data : list byte) (h h' : heap) :
  observe (PacketHandler.parser data h) = observe (PacketHandler.parser data h')
  ∧ (∃ fresh, (PacketHandler.parser data h).2 = h ++ fresh)
  ∧ observe (PacketHandler.parser data (PacketHandler.parser data h).2)
    = observe (PacketHandler.parser data h).
Proof.
  split; [|split].
  - by rewrite (observe_parser data h), (observe_parser data h').
  - rewrite parser_frame. by eexists.
  - by rewrite (observe_parser data h), (observe_parser data (_.2)).
Qed.

(** ** The allocated records *)

Lemma allocate_from (k a : nat) (refs : list loc) (h : heap) :
  for_in (Z.of_nat <$> seq a k)
    (λ (_ : Z) (detected_objects : list loc),
       o ← alloc DetectedObject.default; mret (detected_objects ++ [o]))
    refs h
  = (Ok (refs ++ seq (length h) k), h ++ replicate k DetectedObject.default).
Proof.
  revert a refs h. induction k as [|k IH]; intros a refs h.
  - cbn. by rewrite !app_nil_r.
  - cbn [seq replicate]. rewrite fmap_cons. cbn [for_in].
    unfold mbind at 1, M_bind at 1. unfold mbind at 1, M_bind at 1.
    unfold alloc at 1. unfold mret at 1, M_ret at 1.
    rewrite IH, length_app. cbn [length].
    rewrite <- !(assoc_L (++)), Nat.add_1_r. reflexivity.
Qed.

(** The first loop of [_parse_tlvs] creates exactly [n] records behind the
    ones the store had, each of them [DetectedObject()], and hands out
    their references in order. *)
Lemma allocate_spec (n : Z) (h : heap) :
  PacketHandler.allocate n [] h
  = (Ok (seq (length h) (Z.to_nat n)),
     h ++ replicate (Z.to_nat n) DetectedObject.default).
Proof. unfold PacketHandler.allocate, py_range. by rewrite allocate_from. Qed.

(** [DetectedObject()] holds [0.0] in every attribute but
    [computed_range]. *)
Lemma default_fields :
  let o := DetectedObject.default in
  DetectedObject.x o = DetectedObject.zero
  ∧ DetectedObject.y o = DetectedObject.zero
  ∧ DetectedObject.z o = DetectedObject.zero
  ∧ DetectedObject.v o = DetectedObject.zero
  ∧ DetectedObject.azimuth o = DetectedObject.zero
  ∧ DetectedObject.elev_angle o = DetectedObject.zero
  ∧ DetectedObject.snr o = DetectedObject.zero
  ∧ DetectedObject.noise o = DetectedObject.zero.
Proof. by repeat split. Qed.

(** C1. [DetectedObject()] does not hold [0.0] in [computed_range]: it
    holds the builtin [range], which [__init__] stores in place of its
    parameter. The records the decoder allocates are such objects, and a
    frame without a type 1 sub-packet returns them so. *)
Theorem default_computed_range_is_builtin :
  DetectedObject.computed_range DetectedObject.default = PyBuiltinRange
  ∧ DetectedObject.computed_range
      (DetectedObject.init DetectedObject.zero DetectedObject.zero DetectedObject.zero
         DetectedObject.zero (PyFloat (Fl 5)) DetectedObject.zero DetectedObject.zero
         DetectedObject.zero DetectedObject.zero) = PyBuiltinRange
  ∧ (∀ n h, (PacketHandler.allocate n [] h).2
            = h ++ replicate (Z.to_nat n) DetectedObject.default)
  ∧ observe (PacketHandler.parser
            (MAGIC ++ encode_u32 0 ++ encode_u32 56 ++ encode_u32 0 ++ encode_u32 1
             ++ encode_u32 0 ++ encode_u32 1 ++ encode_u32 2 ++ encode_u32 0
             ++ encode_u32 0 ++ encode_u32 0 ++ encode_u32 0 ++ encode_u32 0) [])
    = Ok (Some [Some DetectedObject.default]).
Proof.
  split; [reflexivity|]. split; [reflexivity|]. split.
  - intros n h. by rewrite allocate_spec.
  - vm_compute. reflexivity.
Qed.

(** ** The decoder on concrete frames *)

(** One object, a type 1 sub-packet with [(x, y, z, v) = (1, 1, 1, 0)] and a
    type 7 sub-packet with [(snr, noise) = (100, 5)], 76 bytes in all. *)
Example parser_one_object :
  observe (PacketHandler.parser
    (MAGIC ++ encode_u32 0 ++ encode_u32 76 ++ encode_u32 0 ++ encode_u32 1
     ++ encode_u32 0 ++ encode_u32 1 ++ encode_u32 2 ++ encode_u32 0
     ++ encode_u32 1 ++ encode_u32 16
     ++ [x00; x00; x80; x3f] ++ [x00; x00; x80; x3f] ++ [x00; x00; x80; x3f]
     ++ [x00; x00; x00; x00]
     ++ encode_u32 7 ++ encode_u32 4 ++ encode_u16 100 ++ encode_u16 5) [])
  = Ok (Some [Some
      {| DetectedObject.x := PyFloat (Fl 1);
         DetectedObject.y := PyFloat (Fl 1);
         DetectedObject.z := PyFloat (Fl 1);
         DetectedObject.v := PyFloat (Fl 0);
         DetectedObject.computed_range := PyFloat (Fl (PrimFloat.sqrt 3));
         DetectedObject.azimuth :=
           PyFloat (FMul MathUtils.ONEHUNDRENDEIGHTYOVERPI (Atan 1));
         DetectedObject.elev_angle :=
           PyFloat (FMul MathUtils.ONEHUNDRENDEIGHTYOVERPI
                         (Atan (1 / PrimFloat.sqrt 2)));
         DetectedObject.snr := PyInt 100;
         DetectedObject.noise := PyInt 5 |}]).
Proof. vm_compute. reflexivity. Qed.

Example get_azimuth_edges :
  MathUtils.get_azimuth 5 0 = Ok (Fl 90)
  ∧ MathUtils.get_azimuth (-5) 0 = Ok (Fl (-90))
  ∧ MathUtils.get_elev_angle 0 0 5 = Ok (Fl 90)
  ∧ MathUtils.get_elev_angle 0 0 (-5) = Ok (Fl (-90)).
Proof. by repeat split. Qed.

Example py_slice_negative :
  py_slice [x00; x01; x02; x03] (-3) 7 = [x01; x02; x03]
  ∧ py_slice [x00; x01; x02; x03] 6 10 = []
  ∧ py_slice [x00; x01; x02; x03] (-9) (-1) = [x00; x01; x02].
Proof. by repeat split. Qed.

Example check_magic_pattern_short :
  BytesUtils.check_magic_pattern [x02; x01] = Err IndexError
  ∧ BytesUtils.check_magic_pattern [x02; x07] = Ok 0
  ∧ BytesUtils.check_magic_pattern [] = Err IndexError.
Proof. by repeat split. Qed.

(** * Further properties of the decoder *)

(** ** BytesUtils on arbitrary input *)

Lemma byte_val_range (b : byte) : 0 ≤ byte_val b ≤ 255.
Proof. unfold byte_val. pose proof (Byte.to_N_bounded b). lia. Qed.

Lemma byte_is_None (data : list byte) (i v : Z) :
  0 ≤ i → data !! Z.to_nat i = None →
  BytesUtils.byte_is data i v = Err IndexError.
Proof.
  intros Hi Hb. unfold BytesUtils.byte_is, byte_at, py_getitem.
  destruct (Z.ltb_spec i 0); [lia|]. destruct (Z.ltb_spec i 0); [lia|].
  by rewrite Hb.
Qed.

(** The next comparison of the pattern check on a window of known shape:
    the byte is the constant, or both sides are the "no match" outcome. *)
Ltac magic_case :=
  match goal with
  | |- context [byte_val ?b =? ?v] =>
      destruct (Z.eqb_spec (byte_val b) v)
        as [->%(byte_val_inj b (byte_of_Z v))|Hne];
      [cbn [byte_of_Z]
      |rewrite !bool_decide_eq_false_2;
       [reflexivity | intros [=]; subst; by apply Hne..]]
  end.

Ltac magic_reads :=
  repeat first
    [ erewrite byte_is_lookup by (first [lia | reflexivity]); try rewrite and_then_Ok
    | rewrite byte_is_None by (first [lia | reflexivity]) ].

Lemma check_magic_pattern_any (w : list byte) :
  BytesUtils.check_magic_pattern w
  = if bool_decide (take 8 w = MAGIC) then Ok 1
    else if bool_decide (w = take (length w) MAGIC) then Err IndexError
    else Ok 0.
Proof.
  unfold BytesUtils.check_magic_pattern, MAGIC.
  do 8 (destruct w as [|? w];
        [magic_reads; repeat magic_case; reflexivity|]).
  magic_reads. repeat magic_case.
  rewrite bool_decide_eq_true_2 by reflexivity. reflexivity.
Qed.

(** X1. The pattern check on any window: 1 when the window begins with the
    8 bytes of the sync pattern, [IndexError] when the window is a proper
    beginning of the pattern (the empty window included), 0 otherwise; so
    it answers 1 on no window of fewer than 8 bytes. *)
Theorem check_magic_pattern_cases (w : list byte) :
  BytesUtils.check_magic_pattern w
  = (if bool_decide (take 8 w = MAGIC) then Ok 1
     else if bool_decide (w = take (length w) MAGIC) then Err IndexError
     else Ok 0)
  ∧ (BytesUtils.check_magic_pattern w = Ok 1 → (8 ≤ length w)%nat).
Proof.
  pose proof (check_magic_pattern_any w) as Hw. split; [exact Hw|].
  rewrite Hw. case_bool_decide as Hfull.
  - intros _. apply (f_equal length) in Hfull.
    rewrite length_take in Hfull. change (length MAGIC) with 8%nat in Hfull. lia.
  - by case_bool_decide.
Qed.

Lemma u32_le_at_range (data : list byte) (off : nat) :
  0 ≤ u32_le_at data off < 2 ^ 32.
Proof.
  unfold u32_le_at.
  pose proof (byte_val_range (nth off data x00)).
  pose proof (byte_val_range (nth (off + 1) data x00)).
  pose proof (byte_val_range (nth (off + 2) data x00)).
  pose proof (byte_val_range (nth (off + 3) data x00)).
  change (2 ^ 32) with 4294967296. lia.
Qed.

Lemma u16_le_at_range (data : list byte) (off : nat) :
  0 ≤ u16_le_at data off < 2 ^ 16.
Proof.
  unfold u16_le_at.
  pose proof (byte_val_range (nth off data x00)).
  pose proof (byte_val_range (nth (off + 1) data x00)).
  change (2 ^ 16) with 65536. lia.
Qed.

Lemma get_uint16_short (w : list byte) :
  (length w < 2)%nat → BytesUtils.get_uint16 w = Err IndexError.
Proof.
  intros Hw. destruct w as [|b0 [|b1 rest]]; simpl in Hw; try lia; reflexivity.
Qed.

(** X2. The integer readers on any input: [IndexError] exactly when the
    input has fewer than 4 (resp. 2) bytes; otherwise the little-endian
    number of the first 4 (resp. 2) bytes, whatever follows them, which
    lies in [0, 2^32) (resp. [0, 2^16)). *)
Theorem get_uint_cases (w : list byte) :
  BytesUtils.get_uint32 w
    = (if bool_decide (4 ≤ length w)%nat then Ok (u32_le_at w 0) else Err IndexError)
  ∧ BytesUtils.get_uint16 w
    = (if bool_decide (2 ≤ length w)%nat then Ok (u16_le_at w 0) else Err IndexError)
  ∧ 0 ≤ u32_le_at w 0 < 2 ^ 32
  ∧ 0 ≤ u16_le_at w 0 < 2 ^ 16.
Proof.
  split; [|split; [|split; [apply u32_le_at_range | apply u16_le_at_range]]].
  - case_bool_decide as Hw.
    + destruct w as [|b0 [|b1 [|b2 [|b3 rest]]]]; simpl in Hw; try lia.
      unfold BytesUtils.get_uint32, u32_le_at.
      rewrite (byte_at_lookup _ 0 b0), (byte_at_lookup _ 1 b1),
        (byte_at_lookup _ 2 b2), (byte_at_lookup _ 3 b3) by (done || lia).
      cbn. f_equal. lia.
    + apply get_uint32_short. lia.
  - case_bool_decide as Hw.
    + destruct w as [|b0 [|b1 rest]]; simpl in Hw; try lia.
      unfold BytesUtils.get_uint16, u16_le_at.
      rewrite (byte_at_lookup _ 0 b0), (byte_at_lookup _ 1 b1) by (done || lia).
      cbn. f_equal. lia.
    + apply get_uint16_short. lia.
Qed.

(** X3. Reading then writing: 4 bytes read by [get_uint32] are the
    little-endian encoding of the number read, and likewise 2 bytes and
    [get_uint16]; so the readers are injective on inputs of their width. *)
Theorem uint_decode_encode (w4 w2 : list byte) (u v : Z) :
  length w4 = 4%nat → length w2 = 2%nat →
  BytesUtils.get_uint32 w4 = Ok u →
  BytesUtils.get_uint16 w2 = Ok v →
  encode_u32 u = w4 ∧ encode_u16 v = w2.
Proof.
  intros H4 H2 Hu Hv.
  destruct w4 as [|b0 [|b1 [|b2 [|b3 [|]]]]]; try discriminate H4.
  destruct w2 as [|c0 [|c1 [|]]]; try discriminate H2.
  rewrite get_uint32_4 in Hu. rewrite get_uint16_2 in Hv.
  injection Hu as <-. injection Hv as <-.
  pose proof (byte_val_range b0). pose proof (byte_val_range b1).
  pose proof (byte_val_range b2). pose proof (byte_val_range b3).
  pose proof (byte_val_range c0). pose proof (byte_val_range c1).
  unfold encode_u32, encode_u16.
  split; repeat f_equal; apply byte_val_inj; rewrite byte_val_of_Z;
    Z.div_mod_to_equations; lia.
Qed.

Lemma uint_decode_encode_witness :
  encode_u32 2018915346 = [x12; x34; x56; x78] ∧ encode_u16 65261 = [xed; xfe].
Proof.
  apply (uint_decode_encode [x12; x34; x56; x78] [xed; xfe] 2018915346 65261);
    reflexivity.
Defined.

(** ** The header parser on arbitrary buffers *)

Lemma sync_at_iff_window (data : list byte) (i : nat) :
  take 8 (take 8 (drop i data)) = MAGIC ↔ sync_at data i.
Proof. unfold sync_at. by rewrite take_take, Nat.min_id. Qed.

(** Without a sync pattern at [i], the window at [i] raises exactly when
    the bytes from [i] to the end of the buffer are first bytes of the
    pattern. *)
Lemma check_magic_pattern_no_sync (data : list byte) (i : nat) :
  ¬ sync_at data i →
  BytesUtils.check_magic_pattern (take 8 (drop i data))
  = if bool_decide (drop i data = take (length data - i) MAGIC)
    then Err IndexError else Ok 0.
Proof.
  intros Hi. rewrite check_magic_pattern_any.
  rewrite bool_decide_eq_false_2 by (by rewrite sync_at_iff_window).
  apply (f_equal (λ b : bool, if b then Err IndexError else Ok 0)).
  apply bool_decide_ext.
  rewrite length_take, length_drop.
  destruct (decide (8 ≤ length data - i)%nat) as [Hge|Hlt].
  - rewrite Nat.min_l by done.
    rewrite (take_ge MAGIC) by done. rewrite (take_ge MAGIC (length data - i)) by done.
    split; intros H; exfalso; apply Hi; unfold sync_at; [done|by rewrite H].
  - rewrite Nat.min_r by lia. rewrite take_ge by (rewrite length_drop; lia). done.
Qed.

Lemma find_header_start_no_sync (data : list byte) :
  (∀ i, ¬ sync_at data i) →
  ∀ n a d,
    PacketHandler.find_header_start data (Z.of_nat <$> seq a n) d
    = if existsb (λ i, bool_decide (drop i data = take (length data - i) MAGIC))
                 (seq a n)
      then Err IndexError else Ok d.
Proof.
  intros Hno. induction n as [|n IH]; intros a d; [done|].
  cbn [seq existsb]. rewrite fmap_cons. cbn [PacketHandler.find_header_start].
  rewrite py_slice_window8, check_magic_pattern_no_sync by apply Hno.
  case_bool_decide; [done|]. rewrite rbind_Ok. cbn [Z.eqb orb]. apply IH.
Qed.

Lemma parse_packet_info_sync_free (data : list byte) :
  (∀ i, ¬ sync_at data i) →
  PacketHandler._parse_packet_info data
  = if partial_sync_tail data then Err IndexError else Ok PacketInfo.default.
Proof.
  intros Hno.
  unfold PacketHandler._parse_packet_info, py_range, partial_sync_tail.
  rewrite Nat2Z.id, find_header_start_no_sync by done.
  by destruct (existsb _ _).
Qed.

(** X4. A buffer without a sync pattern: the header parser returns the
    sentinel header, unless the buffer ends with first bytes of the
    pattern, when it raises [IndexError]; the entry point returns [None]
    in the first case and raises in the second, the store untouched. *)
Theorem parse_packet_info_no_sync (data : list byte) (h : heap) :
  (∀ i, ¬ sync_at data i) →
  PacketHandler._parse_packet_info data
    = (if partial_sync_tail data then Err IndexError else Ok PacketInfo.default)
  ∧ PacketHandler.parser data h
    = (if partial_sync_tail data then Err IndexError else Ok None, h).
Proof.
  intros Hno. pose proof (parse_packet_info_sync_free data Hno) as Hpi.
  split; [exact Hpi|].
  unfold PacketHandler.parser. rewrite Hpi.
  by destruct (partial_sync_tail data).
Qed.

Lemma parse_packet_info_no_sync_witness :
  let data := [x02; x01; x00; x02; x01; x04] in
  PacketHandler._parse_packet_info data
    = (if partial_sync_tail data then Err IndexError else Ok PacketInfo.default)
  ∧ PacketHandler.parser data []
    = (if partial_sync_tail data then Err IndexError else Ok None, []).
Proof.
  apply (parse_packet_info_no_sync [x02; x01; x00; x02; x01; x04] []).
  intros i Hi%sync_at_bound. simpl in Hi. lia.
Defined.

(** The first sync pattern of a buffer, if it has one. *)
Lemma first_sync_below (data : list byte) (n : nat) :
  (∀ i, (i < n)%nat → ¬ sync_at data i)
  ∨ (∃ s, (s < n)%nat ∧ sync_at data s ∧ ∀ j, (j < s)%nat → ¬ sync_at data j).
Proof.
  induction n as [|n [IH|IH]].
  - left. lia.
  - destruct (decide (take 8 (drop n data) = MAGIC)) as [Hn|Hn].
    + right. exists n. split; [lia|]. by split.
    + left. intros i Hi. destruct (decide (i = n)) as [->|]; [done|]. apply IH. lia.
  - right. destruct IH as (s & Hs & Hsync & Hfirst). exists s. split; [lia|]. by split.
Qed.

Lemma first_sync_cases (data : list byte) :
  (∀ i, ¬ sync_at data i)
  ∨ (∃ s, sync_at data s ∧ ∀ j, (j < s)%nat → ¬ sync_at data j).
Proof.
  destruct (first_sync_below data (length data)) as [Hno|(s & _ & Hs)].
  - left. intros i Hi. pose proof (sync_at_bound _ _ Hi). apply (Hno i); [lia|done].
  - right. by exists s.
Qed.

(** A returned header is the sentinel, for a buffer without a sync
    pattern, or the header of the layout at the first sync pattern. *)
Lemma parse_packet_info_cases (data : list byte) (pi : PacketInfo.t) :
  PacketHandler._parse_packet_info data = Ok pi →
  (pi = PacketInfo.default ∧ ∀ i, ¬ sync_at data i)
  ∨ (∃ s, sync_at data s
        ∧ (∀ j, (j < s)%nat → ¬ sync_at data j)
        ∧ (s + 40 ≤ length data)%nat
        ∧ pi = header_at data s).
Proof.
  intros Hpi. destruct (first_sync_cases data) as [Hno|(s & Hs & Hfirst)].
  - left. split; [|done].
    rewrite (parse_packet_info_sync_free data Hno) in Hpi.
    destruct (partial_sync_tail data); congruence.
  - right. exists s. destruct (decide (s + 40 ≤ length data)%nat) as [Hlen|Hlen].
    + rewrite (parse_packet_info_located data s) in Hpi by done.
      by injection Hpi as <-.
    + rewrite (parse_packet_info_truncated data s) in Hpi by (done || lia).
      discriminate.
Qed.

(** X5. What a returned header says about the buffer: it is the sentinel
    and the buffer has no sync pattern, or it starts at the first sync
    pattern, 40 bytes at least are there from its start, and its fields
    are the six little-endian numbers of the layout, each in [0, 2^32). *)
Theorem parse_packet_info_inv (data : list byte) (pi : PacketInfo.t) :
  PacketHandler._parse_packet_info data = Ok pi →
  (pi = PacketInfo.default ∧ ∀ i, ¬ sync_at data i)
  ∨ (∃ s, sync_at data s
        ∧ (∀ j, (j < s)%nat → ¬ sync_at data j)
        ∧ (s + 40 ≤ length data)%nat
        ∧ pi = header_at data s
        ∧ 0 ≤ PacketInfo.packet_length pi < 2 ^ 32
        ∧ 0 ≤ PacketInfo.frame_number pi < 2 ^ 32
        ∧ 0 ≤ PacketInfo.time_cpu_cycles pi < 2 ^ 32
        ∧ 0 ≤ PacketInfo.number_detected_objects pi < 2 ^ 32
        ∧ 0 ≤ PacketInfo.number_tlv pi < 2 ^ 32
        ∧ 0 ≤ PacketInfo.sub_frame_number pi < 2 ^ 32).
Proof.
  intros [Hno|(s & Hs & Hfirst & Hlen & ->)]%parse_packet_info_cases;
    [by left|].
  right. exists s. repeat split; try done; apply u32_le_at_range.
Qed.

Lemma parse_packet_info_inv_witness :
  let data := [x07] ++ MAGIC ++ replicate 32 x01 in
  let pi := PacketInfo.init 1 16843009 16843009 16843009 16843009 16843009 16843009 in
  (pi = PacketInfo.default ∧ ∀ i, ¬ sync_at data i)
  ∨ (∃ s, sync_at data s
        ∧ (∀ j, (j < s)%nat → ¬ sync_at data j)
        ∧ (s + 40 ≤ length data)%nat
        ∧ pi = header_at data s
        ∧ 0 ≤ PacketInfo.packet_length pi < 2 ^ 32
        ∧ 0 ≤ PacketInfo.frame_number pi < 2 ^ 32
        ∧ 0 ≤ PacketInfo.time_cpu_cycles pi < 2 ^ 32
        ∧ 0 ≤ PacketInfo.number_detected_objects pi < 2 ^ 32
        ∧ 0 ≤ PacketInfo.number_tlv pi < 2 ^ 32
        ∧ 0 ≤ PacketInfo.sub_frame_number pi < 2 ^ 32).
Proof.
  apply (parse_packet_info_inv ([x07] ++ MAGIC ++ replicate 32 x01)
           (PacketInfo.init 1 16843009 16843009 16843009 16843009 16843009 16843009)).
  vm_compute. reflexivity.
Defined.

(** The validator on the header of the layout. *)
Lemma get_status_header_at (data : list byte) (s : nat) :
  PacketHandler._get_status data (header_at data s)
  = Ok (if (u32_le_at data (s + 36) >? 3)
           || (Z.of_nat s + u32_le_at data (s + 12) >? Z.of_nat (length data))
        then TC_FAIL else TC_PASS).
Proof.
  pose proof (u32_le_at_range data (s + 28)) as Hn.
  unfold PacketHandler._get_status.
  cbn [PacketInfo.header_start_index PacketInfo.number_detected_objects
       PacketInfo.sub_frame_number PacketInfo.packet_length header_at].
  destruct (Z.eqb_spec (Z.of_nat s) (-1)); [lia|].
  destruct (Z.ltb_spec (u32_le_at data (s + 28)) 0); [lia|].
  destruct (_ >? 3); [done|]. destruct (_ >? Z.of_nat _); [done|].
  cbv zeta.
  destruct (Z.ltb_spec (Z.of_nat s + u32_le_at data (s + 12) + 8)
              (u32_le_at data (s + 12))); [lia|done].
Qed.

(** X6. The validator on a header that the header parser returned: it
    never raises, and it fails exactly the sentinel, a sub-frame number
    above 3 and a declared frame that ends beyond the buffer. For such a
    header the count is never negative and the guard of the next-frame
    check never holds, so these two checks decide nothing. *)
Theorem get_status_of_parsed (data : list byte) (pi : PacketInfo.t) :
  PacketHandler._parse_packet_info data = Ok pi →
  PacketHandler._get_status data pi
  = Ok (if (PacketInfo.header_start_index pi =? -1)
           || (PacketInfo.sub_frame_number pi >? 3)
           || (PacketInfo.header_start_index pi + PacketInfo.packet_length pi
                 >? Z.of_nat (length data))
        then TC_FAIL else TC_PASS).
Proof.
  intros [[-> _]|(s & _ & _ & _ & ->)]%parse_packet_info_cases; [done|].
  rewrite get_status_header_at.
  cbn [PacketInfo.header_start_index PacketInfo.sub_frame_number
       PacketInfo.packet_length header_at].
  by destruct (Z.eqb_spec (Z.of_nat s) (-1)); [lia|].
Qed.

Lemma get_status_of_parsed_witness :
  let data := [x07] ++ MAGIC ++ replicate 32 x01 in
  let pi := PacketInfo.init 1 16843009 16843009 16843009 16843009 16843009 16843009 in
  PacketHandler._get_status data pi
  = Ok (if (PacketInfo.header_start_index pi =? -1)
           || (PacketInfo.sub_frame_number pi >? 3)
           || (PacketInfo.header_start_index pi + PacketInfo.packet_length pi
                 >? Z.of_nat (length data))
        then TC_FAIL else TC_PASS).
Proof.
  apply (get_status_of_parsed ([x07] ++ MAGIC ++ replicate 32 x01)
           (PacketInfo.init 1 16843009 16843009 16843009 16843009 16843009 16843009)).
  vm_compute. reflexivity.
Defined.

(** ** The sub-packet decoder against its value *)

Lemma mbind_lift {A B} (r : result A) (k : A → M B) (h : heap) :
  (lift r ≫= k) h = match r with Ok a => k a h | Err e => (Err e, h) end.
Proof. by destruct r. Qed.

Lemma mbind_run {A B} (m : M A) (k : A → M B) (h : heap) :
  (m ≫= k) h
  = match m h with (Ok a, h') => k a h' | (Err e, h') => (Err e, h') end.
Proof. reflexivity. Qed.

(** One read of a loop body and the same read of the slot: both go on, or
    both raise. *)
Ltac slot_read :=
  rewrite mbind_lift;
  match goal with
  | |- context [match ?r with Ok _ => _ | Err _ => _ end] =>
      destruct r; [rewrite rbind_Ok | reflexivity]
  end.

Lemma py_getitem_seq (base n : nat) (obj : Z) :
  0 ≤ obj < Z.of_nat n →
  py_getitem (seq base n) obj = Ok (base + Z.to_nat obj)%nat.
Proof.
  intros Hobj. unfold py_getitem.
  destruct (Z.ltb_spec obj 0); [lia|]. destruct (Z.ltb_spec obj 0); [lia|].
  by rewrite lookup_seq_lt by lia.
Qed.

Lemma tlv_1_body_slot (data : list byte) (base n : nat) (tlv_start obj offset : Z)
    (h : heap) :
  0 ≤ obj < Z.of_nat n →
  PacketHandler.tlv_1_body data (seq base n) tlv_start obj offset h
  = match kinematics data (tlv_start + offset) with
    | Ok m => (Ok (offset + 16), alter m (base + Z.to_nat obj)%nat h)
    | Err e => (Err e, h)
    end.
Proof.
  intros Hobj. unfold PacketHandler.tlv_1_body, kinematics.
  do 7 slot_read. by rewrite py_getitem_seq, mbind_lift_Ok by done.
Qed.

Lemma tlv_7_body_slot (data : list byte) (base n : nat) (tlv_start obj offset : Z)
    (h : heap) :
  0 ≤ obj < Z.of_nat n →
  PacketHandler.tlv_7_body data (seq base n) tlv_start obj offset h
  = match quality data (tlv_start + offset) with
    | Ok m => (Ok (offset + 4), alter m (base + Z.to_nat obj)%nat h)
    | Err e => (Err e, h)
    end.
Proof.
  intros Hobj. unfold PacketHandler.tlv_7_body, quality.
  do 2 slot_read. by rewrite py_getitem_seq, mbind_lift_Ok by done.
Qed.

Lemma fill_length (slot : Z → result (DetectedObject.t → DetectedObject.t))
    (step : Z) (objs : list DetectedObject.t) :
  ∀ pos objs', fill slot pos step objs = Ok objs' → length objs' = length objs.
Proof.
  induction objs as [|o rest IH]; intros pos objs'; cbn [fill].
  - by intros [= <-].
  - destruct (slot pos); [rewrite rbind_Ok | discriminate].
    destruct (fill slot (pos + step) step rest) eqn:Hrest; [|discriminate].
    rewrite rbind_Ok. intros [= <-]. cbn. f_equal. by eapply IH.
Qed.

(** A loop whose body updates the object of its index, run over the
    objects [rest] that follow [front] in the store, leaves what [fill]
    computes, or raises what [fill] raises. *)
Lemma for_in_fill (slot : Z → result (DetectedObject.t → DetectedObject.t))
    (body : Z → Z → M Z) (tlv_start step : Z) (base n : nat) :
  (∀ obj offset h, 0 ≤ obj < Z.of_nat n →
     body obj offset h
     = match slot (tlv_start + offset) with
       | Ok m => (Ok (offset + step), alter m (base + Z.to_nat obj)%nat h)
       | Err e => (Err e, h)
       end) →
  ∀ (rest front : heap) (a : nat) (offset : Z),
    length front = (base + a)%nat → (a + length rest = n)%nat →
    match fill slot (tlv_start + offset) step rest with
    | Ok rest' =>
        ∃ offset', for_in (Z.of_nat <$> seq a (length rest)) body offset (front ++ rest)
                   = (Ok offset', front ++ rest')
    | Err e =>
        (for_in (Z.of_nat <$> seq a (length rest)) body offset (front ++ rest)).1
        = Err e
    end.
Proof.
  intros Hbody. induction rest as [|o rest IH]; intros front a offset Hfront Hn.
  - cbn. by exists offset.
  - cbn [length seq fill]. rewrite fmap_cons. cbn [for_in].
    rewrite mbind_run, Hbody by (cbn [length] in Hn; lia).
    destruct (slot (tlv_start + offset)) as [m|e]; [rewrite rbind_Ok | done].
    rewrite Nat2Z.id, <- Hfront, <- (Nat.add_0_r (length front)), alter_app_r.
    cbn [alter list_alter]. rewrite (cons_middle (m o)), (assoc_L (++)).
    specialize (IH (front ++ [m o]) (S a) (offset + step)).
    rewrite Z.add_assoc in IH.
    destruct (fill slot (tlv_start + offset + step) step rest) as [rest'|e].
    + destruct IH as [offset' ->];
        [rewrite length_app; cbn [length]; lia | cbn [length] in Hn; lia |].
      rewrite rbind_Ok. exists offset'. by rewrite <- (assoc_L (++)).
    + rewrite rbind_Err. apply IH;
        [rewrite length_app; cbn [length]; lia | cbn [length] in Hn; lia].
Qed.

(** One block of [_parse_tlvs], processed or skipped, against [fill]. *)
Lemma block_fill (cond : bool)
    (slot : Z → result (DetectedObject.t → DetectedObject.t))
    (body : Z → Z → M Z) (tlv_start step : Z) (n : Z) (h objs : heap) :
  length objs = Z.to_nat n →
  (∀ obj offset h', 0 ≤ obj < Z.of_nat (Z.to_nat n) →
     body obj offset h'
     = match slot (tlv_start + offset) with
       | Ok m => (Ok (offset + step), alter m (length h + Z.to_nat obj)%nat h')
       | Err e => (Err e, h')
       end) →
  match (if cond then fill slot (tlv_start + 8) step objs else Ok objs) with
  | Ok objs' =>
      (∃ offset', (if cond then for_in (py_range n) body 8 else mret 8) (h ++ objs)
                  = (Ok offset', h ++ objs'))
      ∧ length objs' = Z.to_nat n
  | Err e =>
      ((if cond then for_in (py_range n) body 8 else mret 8) (h ++ objs)).1 = Err e
  end.
Proof.
  intros Hlen Hbody. destruct cond; [|split; [by exists 8|done]].
  pose proof (for_in_fill slot body tlv_start step (length h) (Z.to_nat n) Hbody
                objs h 0%nat 8) as H.
  rewrite Hlen in H. unfold py_range.
  destruct (fill slot (tlv_start + 8) step objs) as [objs'|e] eqn:Hfill.
  - split; [apply H; lia|]. by rewrite (fill_length _ _ _ _ _ Hfill).
  - apply H; lia.
Qed.

Lemma mbind_run_Err {A B} (m : M A) (k : A → M B) (h : heap) (e : pyerr) :
  (m h).1 = Err e → ((m ≫= k) h).1 = Err e.
Proof.
  rewrite mbind_run. destruct (m h) as [[a|e'] h']; cbn; intros H;
    [discriminate H | by injection H as ->].
Qed.

(** [_parse_tlvs] against [decode_tlvs]. *)
Lemma parse_tlvs_value (data : list byte) (pi : PacketInfo.t) (h : heap) :
  match decode_tlvs data pi with
  | Ok objs =>
      PacketHandler._parse_tlvs data pi h
        = (Ok (seq (length h) (Z.to_nat (PacketInfo.number_detected_objects pi))),
           h ++ objs)
      ∧ length objs = Z.to_nat (PacketInfo.number_detected_objects pi)
  | Err e => (PacketHandler._parse_tlvs data pi h).1 = Err e
  end.
Proof.
  unfold PacketHandler._parse_tlvs, decode_tlvs.
  rewrite mbind_run, allocate_spec. cbv zeta.
  set (n := PacketInfo.number_detected_objects pi).
  set (refs := seq (length h) (Z.to_nat n)).
  do 2 slot_read.
  match goal with |- context [fill (kinematics data) (?ts + 8) 16 ?objs] =>
    pose proof (block_fill ((a =? 1) && (a0 <? PacketInfo.packet_length pi))
                  (kinematics data) (PacketHandler.tlv_1_body data refs ts)
                  ts 16 n h objs (length_replicate _ _)
                  (λ obj offset h' Hobj,
                     tlv_1_body_slot data (length h) (Z.to_nat n) ts obj offset h' Hobj))
      as H1
  end.
  destruct (if (a =? 1) && (a0 <? PacketInfo.packet_length pi) then _ else _)
    as [objs1|e]; [|by apply mbind_run_Err].
  destruct H1 as [[offset1 H1] Hlen1]. rewrite mbind_run, H1, rbind_Ok.
  do 2 slot_read.
  match goal with |- context [fill (quality data) (?ts + 8) 4 objs1] =>
    pose proof (block_fill (a1 =? 7)
                  (quality data) (PacketHandler.tlv_7_body data refs ts)
                  ts 4 n h objs1 Hlen1
                  (λ obj offset h' Hobj,
                     tlv_7_body_slot data (length h) (Z.to_nat n) ts obj offset h' Hobj))
      as H2
  end.
  destruct (if a1 =? 7 then fill _ _ _ _ else _) as [objs2|e];
    [|by apply mbind_run_Err].
  destruct H2 as [[offset2 H2] Hlen2]. by rewrite mbind_run, H2.
Qed.

(** The entry point against its value. *)
Lemma parser_decode (data : list byte) (h : heap) :
  match decode data with
  | Ok (Some objs) =>
      PacketHandler.parser data h
      = (Ok (Some (seq (length h) (length objs))), h ++ objs)
  | Ok None => PacketHandler.parser data h = (Ok None, h)
  | Err e => (PacketHandler.parser data h).1 = Err e
  end.
Proof.
  unfold PacketHandler.parser, decode.
  do 2 slot_read.
  match goal with |- context [match ?st with TC_PASS => _ | TC_FAIL => _ end] =>
    destruct st end; [|done].
  pose proof (parse_tlvs_value data a h) as H.
  destruct (decode_tlvs data a) as [objs|e]; [|by apply mbind_run_Err].
  destruct H as [H Hlen]. rewrite rbind_Ok, mbind_run, H. by rewrite Hlen.
Qed.

(** X7. The decoder, which allocates the objects and then updates them in
    place through their references in two passes, computes a value:
    when [decode_tlvs] gives objects, [_parse_tlvs] returns the references
    of exactly as many new objects as the header counts, in order, and
    leaves these objects behind the ones the store had; when [decode_tlvs]
    raises, [_parse_tlvs] raises the same exception; and the entry point
    does the same with [decode]. Slot [i] is filled from the bytes of slot
    [i] alone. *)
Theorem parse_tlvs_decode (data : list byte) (pi : PacketInfo.t) (h : heap) :
  match decode_tlvs data pi with
  | Ok objs =>
      PacketHandler._parse_tlvs data pi h
        = (Ok (seq (length h) (Z.to_nat (PacketInfo.number_detected_objects pi))),
           h ++ objs)
      ∧ length objs = Z.to_nat (PacketInfo.number_detected_objects pi)
  | Err e => (PacketHandler._parse_tlvs data pi h).1 = Err e
  end
  ∧ match decode data with
    | Ok (Some objs) =>
        PacketHandler.parser data h
        = (Ok (Some (seq (length h) (length objs))), h ++ objs)
    | Ok None => PacketHandler.parser data h = (Ok None, h)
    | Err e => (PacketHandler.parser data h).1 = Err e
    end.
Proof.
  split; [apply parse_tlvs_value | apply parser_decode].
Qed.

(** ** Reads at a known position *)

Lemma py_slice_read (data : list byte) (lo hi : Z) (p k : nat) :
  lo = Z.of_nat p → hi = lo + Z.of_nat k →
  py_slice data lo hi = take k (drop p data).
Proof. intros -> ->. apply py_slice_window. Qed.

Lemma get_uint32_read (data : list byte) (lo hi : Z) (p : nat) :
  lo = Z.of_nat p → hi = lo + 4 →
  BytesUtils.get_uint32 (py_slice data lo hi)
  = if bool_decide (p + 4 ≤ length data)%nat then Ok (u32_le_at data p)
    else Err IndexError.
Proof.
  intros Hlo Hhi. rewrite (py_slice_read data lo hi p 4) by (done || lia).
  case_bool_decide.
  - by apply get_uint32_window.
  - apply get_uint32_short. rewrite length_take, length_drop. lia.
Qed.

Lemma get_uint16_read (data : list byte) (lo hi : Z) (p : nat) :
  lo = Z.of_nat p → hi = lo + 2 →
  BytesUtils.get_uint16 (py_slice data lo hi)
  = if bool_decide (p + 2 ≤ length data)%nat then Ok (u16_le_at data p)
    else Err IndexError.
Proof.
  intros Hlo Hhi. rewrite (py_slice_read data lo hi p 2) by (done || lia).
  case_bool_decide as Hp.
  - unfold u16_le_at. rewrite !nth_lookup.
    rewrite <- (Nat.add_0_r p) at 2. rewrite <- !lookup_drop.
    pose proof (length_drop data p) as Hd.
    destruct (drop p data) as [|b0 [|b1 rest]]; simpl in Hd; try lia.
    cbn [take]. rewrite get_uint16_2. cbn. f_equal. lia.
  - apply get_uint16_short. rewrite length_take, length_drop. lia.
Qed.

Lemma unpack_f_read (data : list byte) (lo hi : Z) (p : nat) :
  lo = Z.of_nat p → hi = lo + 4 →
  unpack_f (py_slice data lo hi)
  = if bool_decide (p + 4 ≤ length data)%nat then Ok (f32_at data p)
    else Err StructError.
Proof.
  intros Hlo Hhi. rewrite (py_slice_read data lo hi p 4) by (done || lia).
  case_bool_decide as Hp.
  - unfold f32_at, u32_le_at. rewrite !nth_lookup.
    rewrite <- (Nat.add_0_r p) at 2. rewrite <- !lookup_drop.
    pose proof (length_drop data p) as Hd.
    destruct (drop p data) as [|b0 [|b1 [|b2 [|b3 rest]]]]; simpl in Hd; try lia.
    cbn. do 2 f_equal. lia.
  - pose proof (length_drop data p) as Hd.
    destruct (drop p data) as [|b0 [|b1 [|b2 [|b3 rest]]]]; simpl in Hd;
      try lia; reflexivity.
Qed.

Lemma quality_read (data : list byte) (pos : Z) (p : nat) :
  pos = Z.of_nat p →
  quality data pos
  = if bool_decide (p + 4 ≤ length data)%nat
    then Ok (DetectedObject.tlv_type_7 (PyInt (u16_le_at data p))
               (PyInt (u16_le_at data (p + 2))))
    else Err IndexError.
Proof.
  intros ->. unfold quality.
  rewrite (get_uint16_read data (Z.of_nat p + 0) _ p),
    (get_uint16_read data (Z.of_nat p + 2) _ (p + 2)) by lia.
  repeat case_bool_decide; try lia; reflexivity.
Qed.

Lemma fill_quality (data : list byte) (d : DetectedObject.t) :
  ∀ (k p : nat), (p + 4 * k ≤ length data)%nat →
    fill (quality data) (Z.of_nat p) 4 (replicate k d)
    = Ok ((λ i, DetectedObject.tlv_type_7 (PyInt (u16_le_at data (p + 4 * i)))
                  (PyInt (u16_le_at data (p + 4 * i + 2))) d) <$> seq 0 k).
Proof.
  induction k as [|k IH]; intros p Hp; [done|].
  cbn [replicate fill seq]. rewrite (quality_read data _ p) by done.
  rewrite bool_decide_eq_true_2, rbind_Ok by lia.
  replace (Z.of_nat p + 4) with (Z.of_nat (p + 4)) by lia.
  rewrite IH, rbind_Ok by lia. rewrite fmap_cons, <- fmap_S_seq, <- list_fmap_compose.
  rewrite Nat.mul_0_r, Nat.add_0_r. do 2 f_equal.
  apply list_fmap_ext. intros _ i _. unfold compose.
  by replace (p + 4 * S i)%nat with (p + 4 + 4 * i)%nat by lia.
Qed.

Lemma fill_inv (slot : Z → result (DetectedObject.t → DetectedObject.t)) (step : Z) :
  ∀ objs pos objs', fill slot pos step objs = Ok objs' →
    ∀ (i : nat) o, objs !! i = Some o →
      ∃ m, slot (pos + step * Z.of_nat i) = Ok m ∧ objs' !! i = Some (m o).
Proof.
  induction objs as [|o0 rest IH]; intros pos objs' Hfill i o Hi; [done|].
  cbn [fill] in Hfill.
  destruct (slot pos) as [m|] eqn:Hm; [rewrite rbind_Ok in Hfill | discriminate].
  destruct (fill slot (pos + step) step rest) as [rest'|] eqn:Hrest; [|discriminate].
  rewrite rbind_Ok in Hfill. injection Hfill as <-.
  destruct i as [|i].
  - injection Hi as <-. exists m. split; [|done].
    by replace (pos + step * Z.of_nat 0) with pos by lia.
  - destruct (IH _ _ Hrest i o Hi) as (m' & Hm' & Ho). exists m'. split; [|done].
    by replace (pos + step * Z.of_nat (S i)) with (pos + step + step * Z.of_nat i) by lia.
Qed.

(** The two sub-headers of [decode_tlvs], read. *)
Lemma decode_tlvs_read (data : list byte) (pi : PacketInfo.t) (s : nat) :
  PacketInfo.header_start_index pi = Z.of_nat s →
  let n := Z.to_nat (PacketInfo.number_detected_objects pi) in
  let ts := (s + 40)%nat in
  let t1 := u32_le_at data ts in
  let l1 := u32_le_at data (ts + 4) in
  let ts2 := (ts + 8 + Z.to_nat l1)%nat in
  let t2 := u32_le_at data ts2 in
  decode_tlvs data pi
  = if bool_decide (ts + 8 ≤ length data)%nat then
      objs ← (if (t1 =? 1) && (l1 <? PacketInfo.packet_length pi)
              then fill (kinematics data) (Z.of_nat (ts + 8)) 16
                        (replicate n DetectedObject.default)
              else Ok (replicate n DetectedObject.default));
      if bool_decide (ts2 + 8 ≤ length data)%nat then
        if t2 =? 7 then fill (quality data) (Z.of_nat (ts2 + 8)) 4 objs
        else Ok objs
      else Err IndexError
    else Err IndexError.
Proof.
  intros Hs n ts t1 l1 ts2 t2. unfold decode_tlvs. rewrite Hs. cbv zeta.
  pose proof (u32_le_at_range data (ts + 4)) as Hl1. fold l1 in Hl1.
  rewrite (get_uint32_read data (Z.of_nat s + 40 + 0) _ ts) by lia.
  rewrite (get_uint32_read data (Z.of_nat s + 40 + 4) _ (ts + 4)) by lia.
  destruct (decide (ts + 8 ≤ length data)%nat) as [H1|H1].
  - rewrite !bool_decide_eq_true_2, !rbind_Ok by lia. fold t1 l1.
    replace (Z.of_nat s + 40 + 8) with (Z.of_nat (ts + 8)) by lia.
    destruct (if (t1 =? 1) && _ then _ else _) as [objs|e]; [|done].
    rewrite !rbind_Ok.
    rewrite (get_uint32_read data (Z.of_nat (ts + 8) + l1 + 0) _ ts2) by lia.
    rewrite (get_uint32_read data (Z.of_nat (ts + 8) + l1 + 4) _ (ts2 + 4)) by lia.
    destruct (decide (ts2 + 8 ≤ length data)%nat) as [H2|H2].
    + rewrite !bool_decide_eq_true_2, !rbind_Ok by lia. fold t2.
      by replace (Z.of_nat (ts + 8) + l1 + 8) with (Z.of_nat (ts2 + 8)) by lia.
    + rewrite (bool_decide_eq_false_2 (ts2 + 8 ≤ _)%nat) by done.
      rewrite (bool_decide_eq_false_2 (ts2 + 4 + 4 ≤ _)%nat) by lia.
      by destruct (bool_decide (ts2 + 4 ≤ length data)%nat).
  - rewrite (bool_decide_eq_false_2 (ts + 8 ≤ _)%nat) by done.
    rewrite (bool_decide_eq_false_2 (ts + 4 + 4 ≤ _)%nat) by lia.
    by destruct (bool_decide (ts + 4 ≤ length data)%nat).
Qed.

Lemma kinematics_read (data : list byte) (pos : Z) (p : nat) :
  pos = Z.of_nat p →
  kinematics data pos
  = if bool_decide (p + 16 ≤ length data)%nat then
      let x := f32_at data p in
      let y := f32_at data (p + 4) in
      let z := f32_at data (p + 8) in
      let v := f32_at data (p + 12) in
      computed_range ← MathUtils.get_range x y z;
      azimuth ← MathUtils.get_azimuth x y;
      elev_angle ← MathUtils.get_elev_angle x y z;
      Ok (DetectedObject.tlv_type_1 (PyFloat (Fl x)) (PyFloat (Fl y))
            (PyFloat (Fl z)) (PyFloat (Fl v)) (PyFloat computed_range)
            (PyFloat azimuth) (PyFloat elev_angle))
    else Err StructError.
Proof.
  intros ->. unfold kinematics.
  rewrite (unpack_f_read data (Z.of_nat p) _ p) by lia.
  rewrite (unpack_f_read data (Z.of_nat p + 4) _ (p + 4)) by lia.
  rewrite (unpack_f_read data (Z.of_nat p + 8) _ (p + 8)) by lia.
  rewrite (unpack_f_read data (Z.of_nat p + 12) _ (p + 12)) by lia.
  destruct (decide (p + 16 ≤ length data)%nat).
  - by rewrite !bool_decide_eq_true_2 by lia.
  - rewrite (bool_decide_eq_false_2 (p + 16 ≤ _)%nat) by done.
    rewrite (bool_decide_eq_false_2 (p + 12 + 4 ≤ _)%nat) by lia.
    destruct (bool_decide (p + 4 ≤ length data)%nat); [rewrite rbind_Ok | reflexivity].
    destruct (bool_decide (p + 4 + 4 ≤ length data)%nat); [rewrite rbind_Ok | reflexivity].
    destruct (bool_decide (p + 8 + 4 ≤ length data)%nat); reflexivity.
Qed.

(** X8. A frame whose first sub-packet is not processed as type 1 (another
    type, or a length that is not below [packet_length]): when the two
    sub-headers are in the buffer, and the 4 bytes of every slot are when
    the second sub-packet has type 7, [_parse_tlvs] returns as many new
    objects as the header counts. They are [DetectedObject()] with [snr]
    and [noise] set from the slots for type 7, and plain [DetectedObject()]
    for any other type, which is skipped without an error. *)
Theorem parse_tlvs_without_kinematics (data : list byte) (pi : PacketInfo.t)
    (h : heap) (s : nat) :
  let n := Z.to_nat (PacketInfo.number_detected_objects pi) in
  let ts := (s + 40)%nat in
  let t1 := u32_le_at data ts in
  let l1 := u32_le_at data (ts + 4) in
  let ts2 := (ts + 8 + Z.to_nat l1)%nat in
  let t2 := u32_le_at data ts2 in
  PacketInfo.header_start_index pi = Z.of_nat s →
  (t1 =? 1) && (l1 <? PacketInfo.packet_length pi) = false →
  (ts2 + 8 ≤ length data)%nat →
  (t2 = 7 → (ts2 + 8 + 4 * n ≤ length data)%nat) →
  PacketHandler._parse_tlvs data pi h
  = (Ok (seq (length h) n),
     h ++ (if t2 =? 7
           then (λ i, DetectedObject.tlv_type_7
                        (PyInt (u16_le_at data (ts2 + 8 + 4 * i)))
                        (PyInt (u16_le_at data (ts2 + 8 + 4 * i + 2)))
                        DetectedObject.default) <$> seq 0 n
           else replicate n DetectedObject.default)).
Proof.
  intros n ts t1 l1 ts2 t2 Hs Hcond Hlen Hpay.
  pose proof (parse_tlvs_value data pi h) as Hd.
  rewrite (decode_tlvs_read data pi s Hs) in Hd. cbv zeta in Hd.
  fold n ts t1 l1 ts2 t2 in Hd. rewrite Hcond in Hd.
  rewrite !bool_decide_eq_true_2, rbind_Ok in Hd by (unfold ts2 in Hlen; lia).
  destruct (Z.eqb_spec t2 7) as [Ht2|_].
  - rewrite fill_quality in Hd by auto. by destruct Hd as [-> _].
  - by destruct Hd as [-> _].
Qed.


Lemma parse_tlvs_without_kinematics_witness :
  PacketHandler._parse_tlvs frame_quality_only (PacketInfo.init 0 64 2 2 1 0 0) []
  = (Ok [0; 1]%nat,
     [DetectedObject.tlv_type_7 (PyInt 100) (PyInt 5) DetectedObject.default;
      DetectedObject.tlv_type_7 (PyInt 300) (PyInt 7) DetectedObject.default]).
Proof.
  apply (parse_tlvs_without_kinematics frame_quality_only
           (PacketInfo.init 0 64 2 2 1 0 0) [] 0);
    [reflexivity | reflexivity | vm_compute; lia | intros _; vm_compute; lia].
Defined.

Lemma kinematics_slot_inv (data : list byte) (p : nat)
    (m : DetectedObject.t → DetectedObject.t) (o : DetectedObject.t) :
  kinematics data (Z.of_nat p) = Ok m →
  kinematics_of data p (m o)
  ∧ DetectedObject.snr (m o) = DetectedObject.snr o
  ∧ DetectedObject.noise (m o) = DetectedObject.noise o.
Proof.
  rewrite (kinematics_read data _ p) by done. intros Hm.
  destruct (bool_decide (p + 16 ≤ length data)%nat) eqn:Hp; [|discriminate Hm].
  apply bool_decide_eq_true_1 in Hp. cbv zeta in Hm. unfold kinematics_of.
  destruct (MathUtils.get_range _ _ _) as [r|]; [|discriminate Hm].
  destruct (MathUtils.get_azimuth _ _) as [a|]; [|discriminate Hm].
  destruct (MathUtils.get_elev_angle _ _ _) as [el|]; [|discriminate Hm].
  injection Hm as <-. by repeat split.
Qed.

Lemma quality_slot_inv (data : list byte) (q : nat)
    (m : DetectedObject.t → DetectedObject.t) (o : DetectedObject.t) :
  quality data (Z.of_nat q) = Ok m →
  quality_of data q (m o)
  ∧ (∀ p, kinematics_of data p o → kinematics_of data p (m o))
  ∧ (no_kinematics o → no_kinematics (m o)).
Proof.
  rewrite (quality_read data _ q) by done. intros Hm.
  destruct (bool_decide (q + 4 ≤ length data)%nat) eqn:Hq; [|discriminate Hm].
  apply bool_decide_eq_true_1 in Hq. injection Hm as <-.
  split; [by unfold quality_of|]. split; [intros p Hk|intros Hk]; exact Hk.
Qed.

(** X9. What a returned object holds. When [_parse_tlvs] returns for a
    header that starts at [s], its [i]-th reference is the [i]-th new
    object of the store, and this object holds: from the type 1 sub-packet,
    when that is processed, the four binary32 numbers of the 16 bytes of
    slot [i] (which the buffer has) in [x, y, z, v] and the range, azimuth
    and elevation computed from them, and otherwise the attributes of
    [DetectedObject()]; from the type 7 sub-packet, found 8 bytes plus the
    declared length of the first one after the first sub-header, the two
    16-bit numbers of the 4 bytes of slot [i] in [snr] and [noise], and
    otherwise [0.0] in both. *)
Theorem parse_tlvs_fields (data : list byte) (pi : PacketInfo.t) (h h' : heap)
    (refs : list loc) (s i : nat) :
  let n := Z.to_nat (PacketInfo.number_detected_objects pi) in
  let ts := (s + 40)%nat in
  let t1 := u32_le_at data ts in
  let l1 := u32_le_at data (ts + 4) in
  let ts2 := (ts + 8 + Z.to_nat l1)%nat in
  let t2 := u32_le_at data ts2 in
  PacketInfo.header_start_index pi = Z.of_nat s →
  PacketHandler._parse_tlvs data pi h = (Ok refs, h') →
  (i < n)%nat →
  ∃ o, refs !! i = Some (length h + i)%nat
    ∧ h' !! (length h + i)%nat = Some o
    ∧ (if (t1 =? 1) && (l1 <? PacketInfo.packet_length pi)
       then kinematics_of data (ts + 8 + 16 * i) o else no_kinematics o)
    ∧ (if t2 =? 7 then quality_of data (ts2 + 8 + 4 * i) o else no_quality o).
Proof.
  intros n ts t1 l1 ts2 t2 Hs Hrun Hi.
  pose proof (parse_tlvs_value data pi h) as Hd. rewrite Hrun in Hd.
  destruct (decode_tlvs data pi) as [objs|e] eqn:Hdec; [|discriminate Hd].
  destruct Hd as [[= -> ->] Hlen].
  rewrite (decode_tlvs_read data pi s Hs) in Hdec. cbv zeta in Hdec.
  fold n ts t1 l1 ts2 t2 in Hdec.
  destruct (bool_decide (ts + 8 ≤ length data)%nat); [|discriminate Hdec].
  assert (∃ objs1 o1,
            (if bool_decide (ts2 + 8 ≤ length data)%nat
             then if t2 =? 7 then fill (quality data) (Z.of_nat (ts2 + 8)) 4 objs1
                  else Ok objs1
             else Err IndexError) = Ok objs
            ∧ objs1 !! i = Some o1
            ∧ no_quality o1
            ∧ (if (t1 =? 1) && (l1 <? PacketInfo.packet_length pi)
               then kinematics_of data (ts + 8 + 16 * i) o1 else no_kinematics o1))
    as (objs1 & o1 & Hq & Ho1 & Hnq & Hkin).
  { destruct ((t1 =? 1) && (l1 <? PacketInfo.packet_length pi)).
    - destruct (fill (kinematics data) _ _ _) as [objs1|] eqn:Hfill;
        [|discriminate Hdec].
      destruct (fill_inv _ _ _ _ _ Hfill i DetectedObject.default
                  (lookup_replicate_2 _ _ _ Hi)) as (m & Hm & Ho).
      replace (Z.of_nat (ts + 8) + 16 * Z.of_nat i)
        with (Z.of_nat (ts + 8 + 16 * i)) in Hm by lia.
      destruct (kinematics_slot_inv data _ m DetectedObject.default Hm)
        as (Hk & Hsnr & Hnoise).
      exists objs1, (m DetectedObject.default).
      split; [exact Hdec|]. split; [exact Ho|].
      split; [split; [by rewrite Hsnr | by rewrite Hnoise] | exact Hk].
    - exists (replicate n DetectedObject.default), DetectedObject.default.
      split; [exact Hdec|]. split; [by apply lookup_replicate_2|]. by split. }
  clear Hdec.
  exists (default DetectedObject.default (objs !! i)).
  assert (objs !! i = Some (default DetectedObject.default (objs !! i))
          ∧ (if t2 =? 7
             then quality_of data (ts2 + 8 + 4 * i) (default DetectedObject.default (objs !! i))
             else no_quality (default DetectedObject.default (objs !! i)))
          ∧ (if (t1 =? 1) && (l1 <? PacketInfo.packet_length pi)
             then kinematics_of data (ts + 8 + 16 * i) (default DetectedObject.default (objs !! i))
             else no_kinematics (default DetectedObject.default (objs !! i))))
    as (Ho & Hqual & Hkin').
  { destruct (bool_decide (ts2 + 8 ≤ length data)%nat); [|discriminate Hq].
    destruct (t2 =? 7).
    - destruct (fill_inv _ _ _ _ _ Hq i o1 Ho1) as (m & Hm & Ho).
      replace (Z.of_nat (ts2 + 8) + 4 * Z.of_nat i)
        with (Z.of_nat (ts2 + 8 + 4 * i)) in Hm by lia.
      destruct (quality_slot_inv data _ m o1 Hm) as (Hqo & Hk & Hnk).
      rewrite Ho. cbn. split; [done|]. split; [done|].
      destruct ((t1 =? 1) && _); auto.
    - injection Hq as <-. rewrite Ho1. cbn.
      split; [done|]. split; [exact Hnq | exact Hkin]. }
  split; [by apply lookup_seq_lt|].
  split; [|by split].
  by rewrite lookup_app_r, Nat.add_comm, Nat.add_sub by lia.
Qed.

Lemma parse_tlvs_fields_witness :
  let data := frame_one_object in
  let pi := PacketInfo.init 0 76 1 2 1 0 0 in
  let h' := (PacketHandler._parse_tlvs data pi []).2 in
  let n := Z.to_nat (PacketInfo.number_detected_objects pi) in
  let ts := (0 + 40)%nat in
  let t1 := u32_le_at data ts in
  let l1 := u32_le_at data (ts + 4) in
  let ts2 := (ts + 8 + Z.to_nat l1)%nat in
  let t2 := u32_le_at data ts2 in
  ∃ o, [0%nat] !! 0%nat = Some (length (@nil DetectedObject.t) + 0)%nat
    ∧ h' !! (length (@nil DetectedObject.t) + 0)%nat = Some o
    ∧ (if (t1 =? 1) && (l1 <? PacketInfo.packet_length pi)
       then kinematics_of data (ts + 8 + 16 * 0) o else no_kinematics o)
    ∧ (if t2 =? 7 then quality_of data (ts2 + 8 + 4 * 0) o else no_quality o).
Proof.
  apply (parse_tlvs_fields frame_one_object (PacketInfo.init 0 76 1 2 1 0 0) []
           (PacketHandler._parse_tlvs frame_one_object
              (PacketInfo.init 0 76 1 2 1 0 0) []).2 [0%nat] 0 0);
    [reflexivity | vm_compute; reflexivity | vm_compute; lia].
Defined.

(** ** Frames that pass validation and frames that are cut *)

(** The value of the entry point on a buffer whose first sync pattern is
    at [s], with its header complete. *)
Lemma decode_located (data : list byte) (s : nat) :
  sync_at data s →
  (∀ j, (j < s)%nat → ¬ sync_at data j) →
  (s + 40 ≤ length data)%nat →
  decode data
  = if (u32_le_at data (s + 36) >? 3)
       || (Z.of_nat s + u32_le_at data (s + 12) >? Z.of_nat (length data))
    then Ok None
    else objs ← decode_tlvs data (header_at data s); Ok (Some objs).
Proof.
  intros Hs Hfirst Hlen. unfold decode.
  rewrite (parse_packet_info_located data s Hs Hfirst Hlen), rbind_Ok.
  rewrite get_status_header_at, rbind_Ok.
  by destruct (_ || _).
Qed.

(** X10. Validation does not make the sub-packets safe to read: a frame
    that passes it (a sub-frame number of at most 3, a declared length that
    fits the buffer) in a buffer that ends less than 48 bytes after the
    start of the frame makes the entry point raise [IndexError]. *)
Theorem parser_raises_without_sub_header (data : list byte) (h : heap) (s : nat) :
  sync_at data s →
  (∀ j, (j < s)%nat → ¬ sync_at data j) →
  (s + 40 ≤ length data)%nat →
  (length data < s + 48)%nat →
  u32_le_at data (s + 36) ≤ 3 →
  Z.of_nat s + u32_le_at data (s + 12) ≤ Z.of_nat (length data) →
  (PacketHandler.parser data h).1 = Err IndexError.
Proof.
  intros Hs Hfirst Hlen Hshort Hsub Hfit.
  pose proof (parser_decode data h) as Hrun.
  rewrite (decode_located data s) in Hrun by done.
  destruct (Z.gtb_spec (u32_le_at data (s + 36)) 3); [lia|].
  destruct (Z.gtb_spec (Z.of_nat s + u32_le_at data (s + 12))
              (Z.of_nat (length data))); [lia|].
  cbn [orb] in Hrun.
  rewrite (decode_tlvs_read data (header_at data s) s eq_refl) in Hrun.
  cbv zeta in Hrun. by rewrite bool_decide_eq_false_2 in Hrun by lia.
Qed.

Lemma parser_raises_without_sub_header_witness :
  (PacketHandler.parser
     ([x00] ++ MAGIC ++ encode_u32 0 ++ encode_u32 44 ++ encode_u32 0
      ++ encode_u32 1 ++ encode_u32 0 ++ encode_u32 0 ++ encode_u32 0
      ++ encode_u32 3 ++ [x01; x00; x00; x00]) []).1
  = Err IndexError.
Proof.
  apply (parser_raises_without_sub_header
           ([x00] ++ MAGIC ++ encode_u32 0 ++ encode_u32 44 ++ encode_u32 0
            ++ encode_u32 1 ++ encode_u32 0 ++ encode_u32 0 ++ encode_u32 0
            ++ encode_u32 3 ++ [x01; x00; x00; x00]) [] 1).
  - reflexivity.
  - intros [|j] Hj; [discriminate | lia].
  - vm_compute. lia.
  - vm_compute. lia.
  - vm_compute. discriminate.
  - vm_compute. discriminate.
Defined.

(** The first [k] bytes of a buffer have the windows and the numbers of
    the buffer, where these end before [k]. *)
Lemma window_take (data : list byte) (k i w : nat) :
  (i + w ≤ k)%nat → take w (drop i (take k data)) = take w (drop i data).
Proof.
  intros Hk. rewrite !take_drop_commute, take_take. do 2 f_equal. lia.
Qed.

Lemma u32_le_at_take (data : list byte) (k off : nat) :
  (off + 4 ≤ k)%nat → u32_le_at (take k data) off = u32_le_at data off.
Proof.
  intros Hk. unfold u32_le_at. by rewrite !nth_lookup, !lookup_take_lt by lia.
Qed.

Lemma sync_at_take (data : list byte) (k i : nat) :
  sync_at (take k data) i → sync_at data i.
Proof.
  intros Hi. pose proof (sync_at_bound _ _ Hi) as Hlen.
  rewrite length_take in Hlen. unfold sync_at in *.
  by rewrite window_take in Hi by lia.
Qed.

(** X11. A frame that is cut is dropped: when a buffer is cut after the
    header of its first frame and before the end this header declares, the
    entry point returns [None] on the part before the cut, and leaves the
    store as it was. *)
Theorem parser_cut_frame (data : list byte) (h : heap) (s k : nat) :
  sync_at data s →
  (∀ j, (j < s)%nat → ¬ sync_at data j) →
  (s + 40 ≤ k)%nat → (k ≤ length data)%nat →
  Z.of_nat k < Z.of_nat s + u32_le_at data (s + 12) →
  PacketHandler.parser (take k data) h = (Ok None, h).
Proof.
  intros Hs Hfirst Hk Hlen Hcut.
  assert (Hlen' : length (take k data) = k) by (rewrite length_take; lia).
  pose proof (parser_decode (take k data) h) as Hrun.
  rewrite (decode_located (take k data) s) in Hrun.
  - rewrite Hlen', !u32_le_at_take in Hrun by lia.
    destruct (Z.gtb_spec (Z.of_nat s + u32_le_at data (s + 12)) (Z.of_nat k));
      [|lia].
    by rewrite orb_true_r in Hrun.
  - unfold sync_at. rewrite window_take by lia. exact Hs.
  - intros j Hj Hsync. by apply (Hfirst j Hj), (sync_at_take data k).
  - lia.
Qed.

Lemma parser_cut_frame_witness :
  PacketHandler.parser (take 60 frame_one_object) [] = (Ok None, []).
Proof.
  apply (parser_cut_frame frame_one_object [] 0 60).
  - reflexivity.
  - intros j Hj. lia.
  - lia.
  - vm_compute. lia.
  - vm_compute. reflexivity.
Defined.

(** ** Bytes after and before a frame *)

Lemma nth_app_l (data extra : list byte) (i : nat) :
  (i < length data)%nat → nth i (data ++ extra) x00 = nth i data x00.
Proof. intros Hi. by rewrite !nth_lookup, lookup_app_l. Qed.

Lemma nth_app_r (junk data : list byte) (i : nat) :
  nth (length junk + i) (junk ++ data) x00 = nth i data x00.
Proof.
  rewrite !nth_lookup, lookup_app_r by lia. do 2 f_equal. lia.
Qed.

Lemma u32_le_at_app (data extra : list byte) (off : nat) :
  (off + 4 ≤ length data)%nat →
  u32_le_at (data ++ extra) off = u32_le_at data off.
Proof. intros Hoff. unfold u32_le_at. by rewrite !nth_app_l by lia. Qed.

Lemma u16_le_at_app (data extra : list byte) (off : nat) :
  (off + 2 ≤ length data)%nat →
  u16_le_at (data ++ extra) off = u16_le_at data off.
Proof. intros Hoff. unfold u16_le_at. by rewrite !nth_app_l by lia. Qed.

Lemma window_app (data extra : list byte) (i w : nat) :
  (i + w ≤ length data)%nat →
  take w (drop i (data ++ extra)) = take w (drop i data).
Proof.
  intros Hi. rewrite drop_app_le by lia. apply take_app_le.
  rewrite length_drop. lia.
Qed.

Lemma kinematics_app (data extra : list byte) (pos : Z)
    (m : DetectedObject.t → DetectedObject.t) :
  0 ≤ pos → kinematics data pos = Ok m → kinematics (data ++ extra) pos = Ok m.
Proof.
  intros Hpos.
  rewrite (kinematics_read data pos (Z.to_nat pos)),
    (kinematics_read (data ++ extra) pos (Z.to_nat pos)) by lia.
  destruct (bool_decide (Z.to_nat pos + 16 ≤ length data)%nat) eqn:Hp;
    [|discriminate].
  apply bool_decide_eq_true_1 in Hp.
  rewrite bool_decide_eq_true_2 by (rewrite length_app; lia).
  unfold f32_at. by rewrite !u32_le_at_app by lia.
Qed.

Lemma quality_app (data extra : list byte) (pos : Z)
    (m : DetectedObject.t → DetectedObject.t) :
  0 ≤ pos → quality data pos = Ok m → quality (data ++ extra) pos = Ok m.
Proof.
  intros Hpos.
  rewrite (quality_read data pos (Z.to_nat pos)),
    (quality_read (data ++ extra) pos (Z.to_nat pos)) by lia.
  destruct (bool_decide (Z.to_nat pos + 4 ≤ length data)%nat) eqn:Hp;
    [|discriminate].
  apply bool_decide_eq_true_1 in Hp.
  rewrite bool_decide_eq_true_2 by (rewrite length_app; lia).
  by rewrite !u16_le_at_app by lia.
Qed.

Lemma fill_mono (slot slot' : Z → result (DetectedObject.t → DetectedObject.t))
    (step : Z) :
  0 ≤ step →
  (∀ pos m, 0 ≤ pos → slot pos = Ok m → slot' pos = Ok m) →
  ∀ objs pos objs', 0 ≤ pos →
    fill slot pos step objs = Ok objs' → fill slot' pos step objs = Ok objs'.
Proof.
  intros Hstep Hslot. induction objs as [|o rest IH]; intros pos objs' Hpos;
    cbn [fill]; [done|].
  destruct (slot pos) as [m|] eqn:Hm; [|discriminate].
  rewrite (Hslot pos m Hpos Hm), !rbind_Ok.
  destruct (fill slot (pos + step) step rest) as [rest'|] eqn:Hrest; [|discriminate].
  by rewrite (IH (pos + step) rest') by (lia || done).
Qed.

Lemma decode_tlvs_app (data extra : list byte) (pi : PacketInfo.t)
    (objs : list DetectedObject.t) :
  0 ≤ PacketInfo.header_start_index pi →
  decode_tlvs data pi = Ok objs → decode_tlvs (data ++ extra) pi = Ok objs.
Proof.
  intros Hs.
  rewrite (decode_tlvs_read data pi (Z.to_nat (PacketInfo.header_start_index pi))),
    (decode_tlvs_read (data ++ extra) pi (Z.to_nat (PacketInfo.header_start_index pi)))
    by lia.
  cbv zeta. set (s := Z.to_nat (PacketInfo.header_start_index pi)).
  set (n := Z.to_nat (PacketInfo.number_detected_objects pi)).
  intros Hdec.
  destruct (bool_decide (s + 40 + 8 ≤ length data)%nat) eqn:H1;
    [|discriminate Hdec].
  apply bool_decide_eq_true_1 in H1.
  rewrite (bool_decide_eq_true_2 (s + 40 + 8 ≤ length (data ++ extra))%nat)
    by (rewrite length_app; lia).
  rewrite !(u32_le_at_app data extra (s + 40)),
    !(u32_le_at_app data extra (s + 40 + 4)) by lia.
  set (l1 := u32_le_at data (s + 40 + 4)) in *.
  set (cond := (u32_le_at data (s + 40) =? 1) && (l1 <? PacketInfo.packet_length pi)) in *.
  destruct (if cond then fill (kinematics data) _ _ _ else _) as [objs1|] eqn:Hb1;
    [|discriminate Hdec].
  assert ((if cond
           then fill (kinematics (data ++ extra)) (Z.of_nat (s + 40 + 8)) 16
                  (replicate n DetectedObject.default)
           else Ok (replicate n DetectedObject.default)) = Ok objs1) as ->.
  { destruct cond; [|done].
    apply (fill_mono (kinematics data)); [lia| |lia|done].
    intros pos m. apply kinematics_app. }
  rewrite rbind_Ok in Hdec. rewrite rbind_Ok.
  destruct (bool_decide (s + 40 + 8 + Z.to_nat l1 + 8 ≤ length data)%nat) eqn:H2;
    [|discriminate Hdec].
  apply bool_decide_eq_true_1 in H2.
  rewrite (bool_decide_eq_true_2
             (s + 40 + 8 + Z.to_nat l1 + 8 ≤ length (data ++ extra))%nat)
    by (rewrite length_app; lia).
  rewrite u32_le_at_app by lia.
  destruct (_ =? 7); [|done].
  revert Hdec. apply (fill_mono (quality data)); [lia| |lia].
  intros pos m. apply quality_app.
Qed.

Lemma sync_at_app (data extra : list byte) (i : nat) :
  (i + 8 ≤ length data)%nat → sync_at (data ++ extra) i ↔ sync_at data i.
Proof. intros Hi. unfold sync_at. by rewrite window_app. Qed.

Lemma header_at_app (data extra : list byte) (s : nat) :
  (s + 40 ≤ length data)%nat → header_at (data ++ extra) s = header_at data s.
Proof. intros Hs. unfold header_at. by rewrite !u32_le_at_app by lia. Qed.

Lemma decode_app (data extra : list byte) (objs : list DetectedObject.t) :
  decode data = Ok (Some objs) → decode (data ++ extra) = Ok (Some objs).
Proof.
  intros Hdec. destruct (first_sync_cases data) as [Hno|(s & Hs & Hfirst)].
  { unfold decode in Hdec.
    rewrite (parse_packet_info_sync_free data Hno) in Hdec.
    by destruct (partial_sync_tail data). }
  pose proof (sync_at_bound _ _ Hs) as Hs8.
  destruct (decide (s + 40 ≤ length data)%nat) as [Hlen|Hlen].
  2:{ unfold decode in Hdec.
      rewrite (parse_packet_info_truncated data s) in Hdec by (done || lia).
      discriminate Hdec. }
  rewrite (decode_located data s) in Hdec by done.
  rewrite (decode_located (data ++ extra) s).
  - rewrite !u32_le_at_app, header_at_app by lia.
    destruct (Z.gtb_spec (u32_le_at data (s + 36)) 3); [discriminate Hdec|].
    destruct (Z.gtb_spec (Z.of_nat s + u32_le_at data (s + 12))
                (Z.of_nat (length data))); [discriminate Hdec|].
    destruct (Z.gtb_spec (Z.of_nat s + u32_le_at data (s + 12))
                (Z.of_nat (length (data ++ extra)))) as [Hgt|_];
      [rewrite length_app in Hgt; lia|].
    cbn [orb] in *.
    destruct (decode_tlvs data (header_at data s)) as [objs'|] eqn:Htlv;
      [|discriminate Hdec].
    by rewrite (decode_tlvs_app data extra _ objs') by (cbn; lia || done).
  - by apply sync_at_app.
  - intros j Hj. rewrite sync_at_app by lia. by apply Hfirst.
  - rewrite length_app. lia.
Qed.

(** X12. Only the first frame of a buffer is decoded, and what follows it
    is not looked at: when the entry point returns objects for a buffer,
    it returns the same references to the same objects for that buffer
    followed by any bytes. *)
Theorem parser_ignores_what_follows (data extra : list byte) (h h' : heap)
    (refs : list loc) :
  PacketHandler.parser data h = (Ok (Some refs), h') →
  PacketHandler.parser (data ++ extra) h = (Ok (Some refs), h').
Proof.
  intros Hrun. pose proof (parser_decode data h) as Hd. rewrite Hrun in Hd.
  destruct (decode data) as [[objs|]|e] eqn:Hdec; [|discriminate Hd..].
  injection Hd as -> ->.
  pose proof (parser_decode (data ++ extra) h) as Hd'.
  by rewrite (decode_app data extra objs Hdec) in Hd'.
Qed.

Lemma parser_ignores_what_follows_witness :
  PacketHandler.parser (frame_one_object ++ frame_quality_only) []
  = PacketHandler.parser frame_one_object [].
Proof.
  apply (parser_ignores_what_follows frame_one_object frame_quality_only []
           (PacketHandler.parser frame_one_object []).2 [0%nat]).
  vm_compute. reflexivity.
Defined.

Lemma u32_le_at_shift (junk data : list byte) (off : nat) :
  u32_le_at (junk ++ data) (length junk + off) = u32_le_at data off.
Proof.
  unfold u32_le_at. rewrite <- !(assoc_L Nat.add). by rewrite !nth_app_r.
Qed.

Lemma u16_le_at_shift (junk data : list byte) (off : nat) :
  u16_le_at (junk ++ data) (length junk + off) = u16_le_at data off.
Proof.
  unfold u16_le_at. rewrite <- !(assoc_L Nat.add). by rewrite !nth_app_r.
Qed.

Lemma kinematics_shift (junk data : list byte) (p : nat) :
  kinematics (junk ++ data) (Z.of_nat (length junk + p))
  = kinematics data (Z.of_nat p).
Proof.
  rewrite (kinematics_read (junk ++ data) _ (length junk + p)),
    (kinematics_read data _ p) by done.
  rewrite length_app. unfold f32_at.
  rewrite <- !(assoc_L Nat.add), !u32_le_at_shift.
  destruct (decide (p + 16 ≤ length data)%nat).
  - by rewrite !bool_decide_eq_true_2 by lia.
  - by rewrite !bool_decide_eq_false_2 by lia.
Qed.

Lemma quality_shift (junk data : list byte) (q : nat) :
  quality (junk ++ data) (Z.of_nat (length junk + q)) = quality data (Z.of_nat q).
Proof.
  rewrite (quality_read (junk ++ data) _ (length junk + q)),
    (quality_read data _ q) by done.
  rewrite length_app, <- !(assoc_L Nat.add), !u16_le_at_shift.
  destruct (decide (q + 4 ≤ length data)%nat).
  - by rewrite !bool_decide_eq_true_2 by lia.
  - by rewrite !bool_decide_eq_false_2 by lia.
Qed.

Lemma fill_shift (slot slot' : Z → result (DetectedObject.t → DetectedObject.t))
    (j : nat) (step : Z) :
  0 ≤ step →
  (∀ p : nat, slot' (Z.of_nat (j + p)) = slot (Z.of_nat p)) →
  ∀ objs (p : nat),
    fill slot' (Z.of_nat (j + p)) step objs = fill slot (Z.of_nat p) step objs.
Proof.
  intros Hstep Hslot. induction objs as [|o rest IH]; intros p; cbn [fill]; [done|].
  rewrite Hslot.
  replace (Z.of_nat (j + p) + step) with (Z.of_nat (j + (p + Z.to_nat step))) by lia.
  replace (Z.of_nat p + step) with (Z.of_nat (p + Z.to_nat step)) by lia.
  by rewrite IH.
Qed.

Lemma decode_tlvs_shift (junk data : list byte) (pi pi' : PacketInfo.t) (s : nat) :
  PacketInfo.header_start_index pi = Z.of_nat s →
  PacketInfo.header_start_index pi' = Z.of_nat (length junk + s) →
  PacketInfo.packet_length pi' = PacketInfo.packet_length pi →
  PacketInfo.number_detected_objects pi' = PacketInfo.number_detected_objects pi →
  decode_tlvs (junk ++ data) pi' = decode_tlvs data pi.
Proof.
  intros Hs Hs' Hlen Hn.
  rewrite (decode_tlvs_read data pi s Hs),
    (decode_tlvs_read (junk ++ data) pi' (length junk + s) Hs').
  cbv zeta. rewrite Hlen, Hn, length_app.
  rewrite <- !(assoc_L Nat.add), !u32_le_at_shift.
  set (l1 := u32_le_at data (s + (40 + 4))).
  rewrite !(fill_shift (kinematics data) (kinematics (junk ++ data)) (length junk) 16)
    by (lia || apply kinematics_shift).
  rewrite (bool_decide_ext (length junk + (s + (40 + 8)) ≤ length junk + length data)%nat
             (s + (40 + 8) ≤ length data)%nat) by lia.
  destruct (bool_decide (s + (40 + 8) ≤ length data)%nat); [|done].
  destruct (if _ && _ then _ else _) as [objs1|]; [|done]. rewrite !rbind_Ok.
  rewrite (fill_shift (quality data) (quality (junk ++ data)) (length junk) 4)
    by (lia || apply quality_shift).
  by rewrite (bool_decide_ext
                (length junk + (s + (40 + (8 + (Z.to_nat l1 + 8))))
                 ≤ length junk + length data)%nat
                (s + (40 + (8 + (Z.to_nat l1 + 8))) ≤ length data)%nat) by lia.
Qed.

Lemma observe_decode (data : list byte) (h : heap) :
  observe (PacketHandler.parser data h)
  = match decode data with
    | Ok (Some objs) => Ok (Some (Some <$> objs))
    | Ok None => Ok None
    | Err e => Err e
    end.
Proof.
  pose proof (parser_decode data h) as Hrun. unfold observe.
  destruct (decode data) as [[objs|]|e]; rewrite Hrun; [|done..].
  cbn [fst snd]. do 2 f_equal. apply list_eq. intros i.
  rewrite !list_lookup_fmap.
  destruct (decide (i < length objs)%nat) as [Hi|Hi].
  - rewrite lookup_seq_lt by done. cbn.
    rewrite lookup_app_r, Nat.add_comm, Nat.add_sub by lia.
    by destruct (lookup_lt_is_Some_2 objs i Hi) as [o ->].
  - by rewrite lookup_seq_ge, lookup_ge_None_2 by lia.
Qed.

Lemma decode_shift (junk data : list byte) :
  sync_at data 0 →
  (∀ j, (j < length junk)%nat → ¬ sync_at (junk ++ data) j) →
  decode (junk ++ data) = decode data.
Proof.
  intros Hs Hjunk.
  assert (Hs' : sync_at (junk ++ data) (length junk))
    by (unfold sync_at; by rewrite drop_app_length).
  assert (Hfirst : ∀ j, (j < 0)%nat → ¬ sync_at data j) by lia.
  destruct (decide (40 ≤ length data)%nat) as [Hlen|Hlen].
  - rewrite (decode_located data 0), (decode_located (junk ++ data) (length junk))
      by (done || rewrite ?length_app; lia).
    rewrite length_app, !u32_le_at_shift.
    rewrite (decode_tlvs_shift junk data (header_at data 0)
               (header_at (junk ++ data) (length junk)) 0);
      [|done|cbn; f_equal; lia|cbn; apply u32_le_at_shift..].
    replace (Z.of_nat (length junk) + u32_le_at data 12
               >? Z.of_nat (length junk + length data))
      with (Z.of_nat 0 + u32_le_at data (0 + 12) >? Z.of_nat (length data)); [done|].
    cbn [Nat.add]. destruct (Z.gtb_spec (Z.of_nat 0 + u32_le_at data 12)
                               (Z.of_nat (length data)));
      destruct (Z.gtb_spec (Z.of_nat (length junk) + u32_le_at data 12)
                  (Z.of_nat (length junk + length data))); (done || lia).
  - unfold decode.
    rewrite (parse_packet_info_truncated data 0),
      (parse_packet_info_truncated (junk ++ data) (length junk))
      by (done || rewrite ?length_app; lia).
    done.
Qed.

(** X13. Bytes before the first sync pattern do not change the outcome:
    for a buffer [data] that begins with the sync pattern, and bytes
    [junk] that bring no sync pattern before it, the entry point has the
    same outcome on [junk ++ data] as on [data]: the same exception,
    [None], or objects equal field for field. *)
Theorem parser_skips_leading_bytes (junk data : list byte) (h : heap) :
  sync_at data 0 →
  (∀ j, (j < length junk)%nat → ¬ sync_at (junk ++ data) j) →
  observe (PacketHandler.parser (junk ++ data) h)
  = observe (PacketHandler.parser data h).
Proof.
  intros Hs Hjunk. by rewrite !observe_decode, decode_shift.
Qed.

Lemma parser_skips_leading_bytes_witness :
  observe (PacketHandler.parser ([x02; x01; x04; x00] ++ frame_one_object) [])
  = observe (PacketHandler.parser frame_one_object []).
Proof.
  apply (parser_skips_leading_bytes [x02; x01; x04; x00] frame_one_object []).
  - reflexivity.
  - intros [|[|[|[|j]]]] Hj; try discriminate. simpl in Hj. lia.
Defined.

(** ** Reader and MathUtils *)

(** X14. [Reader.read] has the outcome of the entry point on whatever the
    port delivered: its test for an empty read changes nothing, since the
    entry point itself returns [None] on the empty buffer, without
    touching the store. *)
Theorem reader_read_parser (read_buffer : list byte) (h : heap) :
  Reader.read read_buffer h = PacketHandler.parser read_buffer h
  ∧ Reader.read [] h = (Ok None, h).
Proof.
  split; [|reflexivity].
  unfold Reader.read. destruct read_buffer as [|b rest]; [reflexivity|].
  destruct (Z.gtb_spec (Z.of_nat (length (b :: rest))) 0) as [_|Hle];
    [reflexivity|].
  cbn [length] in Hle. lia.
Qed.

(** X15. [get_azimuth] returns for every pair of floats, NaN and the
    infinities included: the division it performs is guarded by the very
    test that makes a division raise. It is 90 or -90 for [y = 0] (of
    either sign), by the sign of [x], and the arc tangent of [x / y] in
    degrees otherwise. *)
Theorem get_azimuth_total (x y : float) :
  MathUtils.get_azimuth x y
  = Ok (if (y =? 0)%float
        then if (x <? 0)%float then Fl (-90)%float else Fl 90%float
        else FMul MathUtils.ONEHUNDRENDEIGHTYOVERPI (Atan (x / y)%float)).
Proof.
  unfold MathUtils.get_azimuth, fl_div.
  destruct (y =? 0)%float; cbn [negb]; [|reflexivity].
  by destruct (x <? 0)%float.
Qed.

(** ** What the outcome of the entry point says about the buffer *)

(** X16. Returned objects come from a validated frame: when the entry
    point returns references, the buffer has a first sync pattern with its
    header and the first sub-header (48 bytes) after it, the header's
    sub-frame number is at most 3 and its declared frame fits the buffer;
    the references are those of as many new objects as the header counts,
    in order, and these objects are all that the call added to the
    store. *)
Theorem parser_Some_inv (data : list byte) (h h' : heap) (refs : list loc) :
  PacketHandler.parser data h = (Ok (Some refs), h') →
  ∃ s, sync_at data s
    ∧ (∀ j, (j < s)%nat → ¬ sync_at data j)
    ∧ (s + 48 ≤ length data)%nat
    ∧ u32_le_at data (s + 36) ≤ 3
    ∧ Z.of_nat s + u32_le_at data (s + 12) ≤ Z.of_nat (length data)
    ∧ refs = seq (length h) (Z.to_nat (u32_le_at data (s + 28)))
    ∧ ∃ objs, h' = h ++ objs ∧ length objs = Z.to_nat (u32_le_at data (s + 28)).
Proof.
  intros Hrun. pose proof (parser_decode data h) as Hd. rewrite Hrun in Hd.
  destruct (decode data) as [[objs|]|e] eqn:Hdec; [|discriminate Hd..].
  injection Hd as -> ->.
  destruct (first_sync_cases data) as [Hno|(s & Hs & Hfirst)].
  { unfold decode in Hdec. rewrite (parse_packet_info_sync_free data Hno) in Hdec.
    by destruct (partial_sync_tail data). }
  exists s. destruct (decide (s + 40 ≤ length data)%nat) as [Hlen|Hlen].
  2:{ unfold decode in Hdec.
      rewrite (parse_packet_info_truncated data s) in Hdec by (done || lia).
      discriminate Hdec. }
  rewrite (decode_located data s) in Hdec by done.
  destruct (Z.gtb_spec (u32_le_at data (s + 36)) 3); [discriminate Hdec|].
  destruct (Z.gtb_spec (Z.of_nat s + u32_le_at data (s + 12))
              (Z.of_nat (length data))); [discriminate Hdec|].
  cbn [orb] in Hdec.
  destruct (decode_tlvs data (header_at data s)) as [objs'|] eqn:Htlv;
    [|discriminate Hdec].
  injection Hdec as ->.
  pose proof (parse_tlvs_value data (header_at data s) h) as Hval.
  rewrite Htlv in Hval. destruct Hval as [_ Hn]. cbn in Hn.
  rewrite (decode_tlvs_read data (header_at data s) s eq_refl) in Htlv.
  cbv zeta in Htlv.
  destruct (bool_decide (s + 40 + 8 ≤ length data)%nat) eqn:H48;
    [|discriminate Htlv].
  apply bool_decide_eq_true_1 in H48.
  repeat split; try done; try lia.
  - by rewrite Hn.
  - by exists objs.
Qed.

Lemma parser_Some_inv_witness :
  let data := frame_one_object in
  let h' := (PacketHandler.parser frame_one_object []).2 in
  ∃ s, sync_at data s
    ∧ (∀ j, (j < s)%nat → ¬ sync_at data j)
    ∧ (s + 48 ≤ length data)%nat
    ∧ u32_le_at data (s + 36) ≤ 3
    ∧ Z.of_nat s + u32_le_at data (s + 12) ≤ Z.of_nat (length data)
    ∧ [0%nat] = seq (length (@nil DetectedObject.t))
                    (Z.to_nat (u32_le_at data (s + 28)))
    ∧ ∃ objs, h' = [] ++ objs ∧ length objs = Z.to_nat (u32_le_at data (s + 28)).
Proof.
  apply (parser_Some_inv frame_one_object []
           (PacketHandler.parser frame_one_object []).2 [0%nat]).
  vm_compute. reflexivity.
Defined.

(** X17. With the header of the first frame complete, the entry point
    returns [None] exactly when the sub-frame number is above 3 or the
    declared frame ends beyond the buffer; in every other case it returns
    objects or raises. *)
Theorem parser_None_iff (data : list byte) (h : heap) (s : nat) :
  sync_at data s →
  (∀ j, (j < s)%nat → ¬ sync_at data j) →
  (s + 40 ≤ length data)%nat →
  PacketHandler.parser data h = (Ok None, h)
  ↔ 3 < u32_le_at data (s + 36)
    ∨ Z.of_nat (length data) < Z.of_nat s + u32_le_at data (s + 12).
Proof.
  intros Hs Hfirst Hlen. pose proof (parser_decode data h) as Hd.
  rewrite (decode_located data s) in Hd by done.
  destruct (Z.gtb_spec (u32_le_at data (s + 36)) 3);
    [split; [lia|done]|].
  destruct (Z.gtb_spec (Z.of_nat s + u32_le_at data (s + 12))
              (Z.of_nat (length data))); [split; [lia|done]|].
  cbn [orb] in Hd. split; [|lia]. intros Hnone. rewrite Hnone in Hd.
  by destruct (decode_tlvs data (header_at data s)).
Qed.

Lemma parser_None_iff_witness :
  let data := MAGIC ++ encode_u32 0 ++ encode_u32 48 ++ encode_u32 0
              ++ encode_u32 1 ++ encode_u32 0 ++ encode_u32 0 ++ encode_u32 0
              ++ encode_u32 4 ++ replicate 8 x00 in
  PacketHandler.parser data [] = (Ok None, [])
  ↔ 3 < u32_le_at data (0 + 36)
    ∨ Z.of_nat (length data) < Z.of_nat 0 + u32_le_at data (0 + 12).
Proof.
  apply (parser_None_iff
           (MAGIC ++ encode_u32 0 ++ encode_u32 48 ++ encode_u32 0
            ++ encode_u32 1 ++ encode_u32 0 ++ encode_u32 0 ++ encode_u32 0
            ++ encode_u32 4 ++ replicate 8 x00) [] 0).
  - reflexivity.
  - intros j Hj. lia.
  - vm_compute. lia.
Defined.

(** ** MathUtils at the edge of the floats *)

(** A float that compares equal to zero is not below zero, and its square
    root compares equal to zero. *)
Lemma float_zero_sqrt (s : float) :
  (s =? 0)%float = true →
  (s <? 0)%float = false ∧ (PrimFloat.sqrt s =? 0)%float = true.
Proof.
  rewrite !FloatAxioms.eqb_spec, ltb_spec, sqrt_spec.
  change (Prim2SF 0) with (S754_zero false).
  destruct (Prim2SF s) as [sg|sg| |sg m e]; cbn; try discriminate; try done.
  all: destruct sg; done.
Qed.

(** X18. The guard of [get_elev_angle] does not exclude a zero divisor:
    for [x] and [y] that are not both zero and whose squares do not
    overflow, when the sum of the squares is zero (they underflow),
    [get_elev_angle] raises [ZeroDivisionError], whatever [z] is. *)
Theorem get_elev_angle_zero_division (x y z : float) :
  ((x =? 0) && (y =? 0))%float = false →
  fl_pow2 x = Ok (x * x)%float →
  fl_pow2 y = Ok (y * y)%float →
  (x * x + y * y =? 0)%float = true →
  MathUtils.get_elev_angle x y z = Err ZeroDivisionError.
Proof.
  intros Hguard Hx Hy Hsum. unfold MathUtils.get_elev_angle.
  rewrite Hguard, Hx, Hy, !rbind_Ok.
  destruct (float_zero_sqrt _ Hsum) as [Hlt Hsqrt].
  unfold fl_sqrt. rewrite Hlt, rbind_Ok. unfold fl_div. by rewrite Hsqrt.
Qed.

Lemma get_elev_angle_zero_division_witness :
  MathUtils.get_elev_angle 0x1p-600 0 1 = Err ZeroDivisionError.
Proof.
  apply (get_elev_angle_zero_division 0x1p-600 0 1); reflexivity.
Defined.
